(** * Agent template processor: a shallow embedding of
      [scripts/agent_template/create.py]

    The script reads Markdown templates that start with a YAML front matter,
    substitutes [{{name}}] placeholders of the body with values declared in
    the front matter and writes the result under a name the front matter
    gives.  This file embeds the class [AgentTemplateProcessor] method by
    method and proves the properties its specification states.

    Python text is a sequence of Unicode code points: a character is a
    number, a [str] a list of them.  The parts of the run-time the script
    calls but does not define (PyYAML, pathlib and the file system, the
    builtin [str] on objects that are not text) are the fields of the class
    [Platform]; everything the script itself does, and the behaviour of the
    [re] module on the two patterns it builds, is defined here. *)

From Stdlib Require Import String Ascii DecimalString.
From Stdlib Require Import List NArith ZArith Arith Bool Lia.
From Stdlib Require Import Permutation.
Import ListNotations.

Set Implicit Arguments.
Set Warnings "-register-all".

(* ================================================================== *)
(** * Text *)

Definition char := N.
Definition str := list char.

(** [lit "..."] is the Python literal with the same characters. *)
Definition lit (s : String.string) : str :=
  map Ascii.N_of_ascii (String.list_ascii_of_string s).
Arguments lit s%_string.

Definition nl : char := 10%N.         (* "\n" *)
Definition backslash : char := 92%N.  (* "\\" *)
Definition lbrace : char := 123%N.    (* "{" *)
Definition rbrace : char := 125%N.    (* "}" *)
Definition dash : char := 45%N.       (* "-" *)

Fixpoint str_eqb (a b : str) : bool :=
  match a, b with
  | [], [] => true
  | x :: a', y :: b' => N.eqb x y && str_eqb a' b'
  | _, _ => false
  end.

(** [s.startswith(p)] *)
Fixpoint startswith (p s : str) : bool :=
  match p, s with
  | [], _ => true
  | x :: p', y :: s' => N.eqb x y && startswith p' s'
  | _ :: _, [] => false
  end.

(** [s[i:j]] for [0 <= i], [0 <= j]. *)
Definition slice (s : str) (i j : nat) : str := firstn (j - i) (skipn i s).

(** [s.find(p)]: the index of the first occurrence of [p] in [s]. *)
Fixpoint find (p s : str) : option nat :=
  if startswith p s then Some 0
  else match s with
       | [] => None
       | _ :: s' => option_map S (find p s')
       end.

(** [p in s] *)
Definition contains (p s : str) : bool :=
  match find p s with Some _ => true | None => false end.

(** [c in s] for a single character. *)
Definition mem (c : char) (s : str) : bool := existsb (N.eqb c) s.

(* ================================================================== *)
(** * The [re] module on the patterns of the script

    [re.match] is a backtracking matcher.  A pattern is compiled to a
    sequence of nodes; the only repetitions the script writes are stars over
    a class of single characters ([\s*], [.*?], [.*]). *)

(** [\s] on [str] patterns: the characters for which [str.isspace] holds. *)
Definition is_space (c : char) : bool :=
  ((9 <=? c) && (c <=? 13) || (28 <=? c) && (c <=? 32)
   || (c =? 133) || (c =? 160) || (c =? 5760)
   || (8192 <=? c) && (c <=? 8202)
   || (c =? 8232) || (c =? 8233) || (c =? 8239) || (c =? 8287)
   || (c =? 12288))%N.

(** [.] under [re.DOTALL]. *)
Definition any_char (_ : char) : bool := true.

Inductive node : Type :=
| Bol                                        (* ^ *)
| Eol                                        (* $ (no MULTILINE) *)
| Lit (c : char)                             (* a literal character *)
| Star (greedy : bool) (cls : char -> bool)  (* x* and x*? *)
| Save.                                      (* a group boundary *)

(** [x*] and [x*?] before the rest [k] of the pattern.  Alternatives are
    tried in the order of the backtracking engine: a greedy star first takes
    one more character, a lazy star first tries the rest of the pattern. *)
Fixpoint star (greedy : bool) (cls : char -> bool)
  (k : nat -> str -> option (list nat)) (pos : nat) (s : str)
  : option (list nat) :=
  match s with
  | x :: s' =>
      if cls x then
        if greedy then
          match star greedy cls k (S pos) s' with
          | Some r => Some r
          | None => k pos s
          end
        else
          match k pos s with
          | Some r => Some r
          | None => star greedy cls k (S pos) s'
          end
      else k pos s
  | [] => k pos s
  end.

(** [run prog pos s caps]: match [prog] against the rest [s] of the subject,
    which starts at index [pos]; [caps] are the group boundaries passed so
    far, latest first. *)
Fixpoint run (prog : list node) (pos : nat) (s : str) (caps : list nat)
  {struct prog} : option (list nat) :=
  match prog with
  | [] => Some caps
  | Bol :: rest => if Nat.eqb pos 0 then run rest pos s caps else None
  | Eol :: rest =>
      match s with
      | [] => run rest pos s caps
      | [c] => if N.eqb c nl then run rest pos s caps else None
      | _ => None
      end
  | Lit c :: rest =>
      match s with
      | x :: s' => if N.eqb x c then run rest (S pos) s' caps else None
      | [] => None
      end
  | Save :: rest => run rest pos s (pos :: caps)
  | Star greedy cls :: rest =>
      star greedy cls (fun pos' s' => run rest pos' s' caps) pos s
  end.

(** [re.match(prog, s)]: the group boundaries in the order of the pattern. *)
Definition re_match (prog : list node) (s : str) : option (list nat) :=
  option_map (@rev nat) (run prog 0 s []).

(** The pattern of [parse_frontmatter], compiled with [re.DOTALL]: at the
    start three dashes, [\s*] and a newline; group 1, a lazy star of any
    character; a newline, three dashes, [\s*] and a newline; group 2, a
    greedy star of any character; the end of the text. *)
Definition frontmatter_pattern : list node :=
  [Bol; Lit dash; Lit dash; Lit dash; Star true is_space; Lit nl;
   Save; Star false any_char; Save;
   Lit nl; Lit dash; Lit dash; Lit dash; Star true is_space; Lit nl;
   Save; Star true any_char; Save; Eol].

(** [match.group(1), match.group(2)] of the front matter pattern. *)
Definition match_frontmatter (content : str) : option (str * str) :=
  match re_match frontmatter_pattern content with
  | Some [a; b; c; d] => Some (slice content a b, slice content c d)
  | _ => None
  end.

Definition doc1 : str :=
  lit "---" ++ [nl] ++ lit "a: 1" ++ [nl] ++ lit "---" ++ [nl] ++ lit "body".


(* ------------------------------------------------------------------ *)
(** ** [re.escape] and the placeholder pattern *)

(** The characters [re.escape] puts a backslash before:
    "()[]{}?*+-|^$\.&~# \t\n\r\v\f". *)
Definition is_special (c : char) : bool :=
  existsb (N.eqb c)
    [40; 41; 91; 93; 123; 125; 63; 42; 43; 45; 124; 94; 36; 92; 46; 38; 126;
     35; 32; 9; 10; 13; 11; 12]%N.

Fixpoint re_escape (s : str) : str :=
  match s with
  | [] => []
  | c :: s' => if is_special c then backslash :: c :: re_escape s'
               else c :: re_escape s'
  end.

Definition is_digit (c : char) : bool := ((48 <=? c) && (c <=? 57))%N.
Definition is_octdigit (c : char) : bool := ((48 <=? c) && (c <=? 55))%N.
Definition is_ascii_letter (c : char) : bool :=
  ((65 <=? c) && (c <=? 90) || (97 <=? c) && (c <=? 122))%N.

(** The characters with a meaning of their own in a pattern. *)
Definition is_meta (c : char) : bool :=
  existsb (N.eqb c) [46; 94; 36; 42; 43; 63; 123; 125; 91; 93; 92; 124; 40; 41]%N.

(** The pattern compiler on patterns that match one fixed text: an escaped
    character that is neither a letter nor a digit, and a character without
    a meaning of its own, stand for themselves.  [None] on every other
    pattern. *)
Fixpoint literal_of (pattern : str) : option str :=
  match pattern with
  | [] => Some []
  | c :: r =>
      if N.eqb c backslash then
        match r with
        | [] => None
        | e :: r' =>
            if is_ascii_letter e || is_digit e then None
            else option_map (cons e) (literal_of r')
        end
      else if is_meta c then None
      else option_map (cons c) (literal_of r)
  end.

(** [r'\{\{' + re.escape(key) + r'\}\}'] *)
Definition placeholder_pattern (key : str) : str :=
  [backslash; lbrace; backslash; lbrace] ++ re_escape key
  ++ [backslash; rbrace; backslash; rbrace].

(** The text that pattern matches: [{{key}}]. *)
Definition placeholder (key : str) : str :=
  [lbrace; lbrace] ++ key ++ [rbrace; rbrace].

(* ------------------------------------------------------------------ *)
(** ** [re.sub] with a replacement string *)

(** The simple escapes of a replacement: a, b, f, n, r, t, v and the
    backslash. *)
Definition escape_code (e : char) : option char :=
  if (e =? 97)%N then Some 7%N else if (e =? 98)%N then Some 8%N
  else if (e =? 102)%N then Some 12%N else if (e =? 110)%N then Some 10%N
  else if (e =? 114)%N then Some 13%N else if (e =? 116)%N then Some 9%N
  else if (e =? 118)%N then Some 11%N else if (e =? 92)%N then Some 92%N
  else None.

Definition digit_val (c : char) : N := (c - 48)%N.

(** Where the template parser is: in plain text, or inside the name of
    [\g<name>] ([empty]: no character of the name read yet; [zero]: every
    character read is the digit 0). *)
Inductive tmode : Type := TText | TName (empty zero : bool).

(** [expand_template TText repl m]: the text a replacement string [repl]
    stands for at a match of text [m], for a pattern without groups
    ([re._parser.parse_template] and the expansion of its result); [None]
    when the parser raises.  The only group that exists is group 0, the
    whole match; every other reference is an error.  The name of a group is
    read as CPython 3.12 reads it, a run of ASCII digits; earlier versions
    read it with [int()] and so take a few more spellings of zero (a sign,
    blanks, an underscore) for group 0. *)
Fixpoint expand_template (mode : tmode) (repl m : str) {struct repl}
  : option str :=
  match repl with
  | [] => match mode with TText => Some [] | TName _ _ => None end
  | c :: r =>
      match mode with
      | TName empty zero =>
          if (c =? 62)%N then
            if negb empty && zero
            then option_map (app m) (expand_template TText r m)
            else None
          else expand_template (TName false (zero && (c =? 48)%N)) r m
      | TText =>
          if negb (c =? backslash)%N
          then option_map (cons c) (expand_template TText r m)
          else
            match r with
            | [] => None
            | e :: r1 =>
                if (e =? 103)%N then
                  match r1 with
                  | lt :: r2 =>
                      if (lt =? 60)%N
                      then expand_template (TName true true) r2 m
                      else None
                  | [] => None
                  end
                else if (e =? 48)%N then
                  match r1 with
                  | d1 :: r2 =>
                      if is_octdigit d1 then
                        match r2 with
                        | d2 :: r3 =>
                            if is_octdigit d2 then
                              option_map
                                (cons (digit_val d1 * 8 + digit_val d2)%N)
                                (expand_template TText r3 m)
                            else
                              option_map (cons (digit_val d1))
                                (expand_template TText r2 m)
                        | [] => Some [digit_val d1]
                        end
                      else option_map (cons 0%N) (expand_template TText r1 m)
                  | [] => Some [0%N]
                  end
                else if is_digit e then
                  match r1 with
                  | d1 :: d2 :: r3 =>
                      if is_octdigit e && is_octdigit d1 && is_octdigit d2
                      then
                        let v := (digit_val e * 64 + digit_val d1 * 8
                                  + digit_val d2)%N in
                        if (255 <? v)%N then None
                        else option_map (cons v) (expand_template TText r3 m)
                      else None
                  | _ => None
                  end
                else
                  match escape_code e with
                  | Some x => option_map (cons x) (expand_template TText r1 m)
                  | None =>
                      if is_ascii_letter e then None
                      else option_map (fun t => backslash :: e :: t)
                             (expand_template TText r1 m)
                  end
            end
      end
  end.

(** The scan of [re.sub] for a pattern that matches the fixed, non-empty
    text [p]: from left to right, a match is replaced by [ins] and the scan
    goes on behind it; [skip] counts the characters of a match still to
    pass. *)
Fixpoint sub_scan (p ins : str) (skip : nat) (s : str) : str :=
  match s with
  | [] => []
  | c :: s' =>
      match skip with
      | S n => sub_scan p ins n s'
      | O =>
          if startswith p s then ins ++ sub_scan p ins (length p - 1) s'
          else c :: sub_scan p ins 0 s'
      end
  end.

(* ================================================================== *)
(** * Python values *)

(** What [yaml.safe_load] can build.  Of an object of another type (a
    float, a date, a set, bytes) the script can only look at its truth
    value and at its [str()]; that is what [VOther] keeps.  The keys of a
    mapping are text, as the annotation [Dict[str, Any]] says, and a mapping
    lists its items in insertion order. *)
Inductive value : Type :=
| VNone
| VBool (b : bool)
| VInt (z : Z)
| VStr (s : str)
| VList (l : list value)
| VDict (d : list (str * value))
| VOther (truth : bool) (text : str).

Definition dict := list (str * value).

(** [bool(v)] *)
Definition truthy (v : value) : bool :=
  match v with
  | VNone => false
  | VBool b => b
  | VInt z => negb (Z.eqb z 0)
  | VStr s => match s with [] => false | _ => true end
  | VList l => match l with [] => false | _ => true end
  | VDict d => match d with [] => false | _ => true end
  | VOther truth _ => truth
  end.

(** [d.get(key)] as an option: [None] when [key] is not in [d]. *)
Fixpoint dict_get (key : str) (d : dict) : option value :=
  match d with
  | [] => None
  | (k, v) :: d' => if str_eqb key k then Some v else dict_get key d'
  end.

(** [d[key] = v]: a key already in [d] keeps its place. *)
Fixpoint dict_set (key : str) (v : value) (d : dict) : dict :=
  match d with
  | [] => [(key, v)]
  | (k, v') :: d' =>
      if str_eqb key k then (k, v) :: d' else (k, v') :: dict_set key v d'
  end.

Definition keys (d : dict) : list str := map fst d.

(** The exceptions the script can meet; all of them are subclasses of
    [Exception]. *)
Inductive exn : Type :=
| YAMLError (msg : str)                  (* raised by yaml.safe_load *)
| AttributeError (obj : value) (attr : str)
                                         (* obj.attr on an object without it *)
| TypeError (operand : value)            (* base / operand, operand not text *)
| ReError (repl : str)                   (* re.sub on a bad replacement *)
| OtherError (name msg : str).           (* raised by a library *)

Definition is_yaml_error (e : exn) : bool :=
  match e with YAMLError _ => true | _ => false end.

Inductive outcome (A : Type) : Type :=
| Ok (a : A)
| Raise (e : exn).
Arguments Ok {A} a.
Arguments Raise {A} e.

(** [len(l)] printed in an f-string. *)
Definition str_of_nat (n : nat) : str :=
  lit (NilEmpty.string_of_uint (Nat.to_uint n)).

(* ================================================================== *)
(** * The run-time the script calls *)

Class Platform : Type := {
  (** the state of the file system, and [pathlib.Path] *)
  FS : Type;
  Path : Type;
  path_str : Path -> str;                          (* str(p) *)
  joinpath : Path -> str -> Path;                  (* p / name *)
  parent : Path -> Path;                           (* p.parent *)
  glob_md : FS -> Path -> outcome (list Path);     (* list(p.glob('*.md')) *)
  read_text : FS -> Path -> outcome str;
  (** [p.mkdir(parents=True, exist_ok=True)] and [p.write_text(text)]: the
      file system afterwards and the exception raised, if any *)
  mkdir_parents : FS -> Path -> FS * option exn;
  write_text : FS -> Path -> str -> FS * option exn;
  (** PyYAML: [yaml.safe_load(text)], and
      [yaml.dump(v, allow_unicode=.., sort_keys=..)] *)
  safe_load : str -> outcome value;
  yaml_dump : forall (allow_unicode sort_keys : bool), value -> str;
  (** [str(v)] of a list or a mapping, and [str(e)] of an exception *)
  container_str : value -> str;
  exn_str : exn -> str
}.

Section Runtime.

Context {platform : Platform}.

(** [str(v)] *)
Definition py_str (v : value) : str :=
  match v with
  | VNone => lit "None"
  | VBool true => lit "True"
  | VBool false => lit "False"
  | VInt z => lit (NilZero.string_of_int (Z.to_int z))
  | VStr s => s
  | VOther _ text => text
  | VList _ | VDict _ => container_str v
  end.

(* ------------------------------------------------------------------ *)
(** ** Effects: the file system and the lines printed *)

Record world : Type := World { files : FS; stdout : list str }.

Definition M (A : Type) : Type := world -> outcome A * world.

Definition ret {A} (a : A) : M A := fun w => (Ok a, w).
Definition raise {A} (e : exn) : M A := fun w => (Raise e, w).
Definition bind {A B} (c : M A) (k : A -> M B) : M B :=
  fun w => match c w with
           | (Ok a, w') => k a w'
           | (Raise e, w') => (Raise e, w')
           end.
(** [try: c except Exception as e: h(e)] *)
Definition try_except {A} (c : M A) (h : exn -> M A) : M A :=
  fun w => match c w with
           | (Ok a, w') => (Ok a, w')
           | (Raise e, w') => h e w'
           end.
Definition lift {A} (o : outcome A) : M A := fun w => (o, w).

(** The world after one more line is printed. *)
Definition say (line : str) (w : world) : world :=
  World (files w) (stdout w ++ [line]).

Definition print (line : str) : M unit := fun w => (Ok tt, say line w).

Definition fs_read (p : Path) : M str := fun w => (read_text (files w) p, w).
Definition fs_glob (p : Path) : M (list Path) :=
  fun w => (glob_md (files w) p, w).
Definition fs_update (op : FS -> FS * option exn) : M unit :=
  fun w => let (fs', e) := op (files w) in
           (match e with None => Ok tt | Some e => Raise e end,
            World fs' (stdout w)).

(** A computation that only adds lines to what was printed. *)
Definition appends {A} (c : M A) : Prop :=
  forall w, exists lines, stdout (snd (c w)) = stdout w ++ lines.

End Runtime.

Declare Scope py_scope.
Delimit Scope py_scope with py.
Notation "x <- c ;; k" := (bind c (fun x => k))
  (at level 61, c at next level, right associativity) : py_scope.
Notation "' pat <- c ;; k" := (bind c (fun x => match x with pat => k end))
  (at level 61, pat pattern, c at next level, right associativity) : py_scope.
Notation "c ;; k" := (bind c (fun _ => k))
  (at level 61, right associativity) : py_scope.

(* ================================================================== *)
(** * The script *)

Section Script.

Context {platform : Platform}.
Local Open Scope py_scope.

(** [re.sub(pattern, repl, s)] for a pattern that matches one fixed text.
    A replacement without a backslash is inserted as it is; any other is a
    template, parsed before the scan starts. *)
Definition re_sub (pattern repl s : str) : outcome str :=
  match literal_of pattern with
  | None => Raise (ReError pattern)
  | Some p =>
      if mem backslash repl then
        match expand_template TText repl p with
        | Some ins => Ok (sub_scan p ins 0 s)
        | None => Raise (ReError repl)
        end
      else Ok (sub_scan p repl 0 s)
  end.

(** [obj.get(key, default)] and [obj.items()]: only a mapping has them. *)
Definition py_get (obj : value) (key : str) (default : value) : outcome value :=
  match obj with
  | VDict d => Ok (match dict_get key d with Some v => v | None => default end)
  | _ => Raise (AttributeError obj (lit "get"))
  end.

Definition py_items (obj : value) : outcome dict :=
  match obj with
  | VDict d => Ok d
  | _ => Raise (AttributeError obj (lit "items"))
  end.

(** [base / name]: [name] has to be text. *)
Definition truediv (base : Path) (name : value) : outcome Path :=
  match name with
  | VStr s => Ok (joinpath base s)
  | _ => Raise (TypeError name)
  end.

Record AgentTemplateProcessor : Type := {
  template_dir : Path;
  output_base_dir : Path
}.

(** [parse_frontmatter(content)] *)
Definition parse_frontmatter (content : str) : M (value * str) :=
  match match_frontmatter content with
  | None => ret (VDict [], content)
  | Some (frontmatter_str, body) =>
      try_except
        (frontmatter <- lift (safe_load frontmatter_str) ;;
         ret (if truthy frontmatter then frontmatter else VDict [], body))
        (fun e =>
           if is_yaml_error e then
             print (lit "Warning: YAML parse error: " ++ exn_str e) ;;
             ret (VDict [], content)
           else raise e)
  end.

(** [replace_variables(content, variables)] *)
Fixpoint replace_variables (content : str) (variables : dict) : outcome str :=
  match variables with
  | [] => Ok content
  | (key, v) :: rest =>
      match re_sub (placeholder_pattern key) (py_str v) content with
      | Ok result => replace_variables result rest
      | Raise e => Raise e
      end
  end.

(** The two loops of [process_template] that fill [variables]: first the
    items of [metadata], then those of [output_info] but [file_name]. *)
Definition collect_variables (metadata output_info : dict) : dict :=
  let variables :=
    fold_left (fun vars kv => dict_set (fst kv) (snd kv) vars) metadata [] in
  fold_left
    (fun vars kv =>
       if negb (str_eqb (fst kv) (lit "file_name"))
       then dict_set (fst kv) (snd kv) vars
       else vars)
    output_info variables.

(** The text written: the front matter dumped again, between two lines of
    dashes, and the body. *)
Definition full_content (frontmatter : value) (processed_body : str) : str :=
  lit "---" ++ [nl] ++ yaml_dump true false frontmatter
  ++ lit "---" ++ [nl] ++ processed_body.

(** [process_template(template_file)] *)
Definition process_template (self : AgentTemplateProcessor)
  (template_file : Path) : M unit :=
  print (lit "Processing: " ++ path_str template_file) ;;
  content <- fs_read template_file ;;
  '(frontmatter, body) <- parse_frontmatter content ;;
  output_info <- lift (py_get frontmatter (lit "output") (VDict [])) ;;
  if negb (truthy output_info) then
    print (lit "Warning: No output info found in " ++ path_str template_file)
  else
    output_filename <- lift (py_get output_info (lit "file_name") VNone) ;;
    if negb (truthy output_filename) then
      print (lit "Warning: No file_name in output info for "
             ++ path_str template_file)
    else
      metadata <- lift (py_get frontmatter (lit "metadata") (VDict [])) ;;
      metadata_items <- lift (py_items metadata) ;;
      output_items <- lift (py_items output_info) ;;
      let variables := collect_variables metadata_items output_items in
      processed_body <- lift (replace_variables body variables) ;;
      output_path <- lift (truediv (output_base_dir self) output_filename) ;;
      fs_update (fun fs => mkdir_parents fs (parent output_path)) ;;
      fs_update (fun fs =>
                   write_text fs output_path
                     (full_content frontmatter processed_body)) ;;
      print (lit "Created: " ++ path_str output_path).

(** The loop of [process_all]: every file in its own [try]. *)
Fixpoint process_each (self : AgentTemplateProcessor)
  (template_files : list Path) : M unit :=
  match template_files with
  | [] => ret tt
  | template_file :: rest =>
      try_except (process_template self template_file)
        (fun e =>
           print (lit "Error processing " ++ path_str template_file
                  ++ lit ": " ++ exn_str e)) ;;
      process_each self rest
  end.

(** [process_all()] *)
Definition process_all (self : AgentTemplateProcessor) : M unit :=
  template_files <- fs_glob (template_dir self) ;;
  match template_files with
  | [] =>
      print (lit "No template files found in " ++ path_str (template_dir self))
  | _ =>
      print (lit "Found " ++ str_of_nat (length template_files)
             ++ lit " template file(s)") ;;
      process_each self template_files
  end.

(** A dumper that, told not to sort, writes the entries of a mapping one
    after the other in the order of the mapping; [entry k v] is the text of
    the entry of key [k] and value [v]. *)
Definition dumps_in_order (entry : str -> value -> str) : Prop :=
  forall d : dict,
    d <> [] ->
    yaml_dump true false (VDict d)
    = flat_map (fun kv => entry (fst kv) (snd kv)) d.

(** What processing the template [f] in the world [w] can leave of the
    files: what was there; or, when the header of [f] is a mapping whose
    [output] mapping names the text [name] as [file_name], what was there
    with the directory of [output_base_dir / name] created, or with that
    directory created and the framed document written at
    [output_base_dir / name]. *)
Definition footprint (self : AgentTemplateProcessor) (f : Path) (w : world)
  (fs' : FS) : Prop :=
  fs' = files w
  \/ exists content header body w2 output_info name,
      read_text (files w) f = Ok content
      /\ parse_frontmatter content (say (lit "Processing: " ++ path_str f) w)
         = (Ok (VDict header, body), w2)
      /\ dict_get (lit "output") header = Some (VDict output_info)
      /\ dict_get (lit "file_name") output_info = Some (VStr name)
      /\ (fs' = fst (mkdir_parents (files w)
                       (parent (joinpath (output_base_dir self) name)))
          \/ exists metadata processed_body,
              py_get (VDict header) (lit "metadata") (VDict [])
              = Ok (VDict metadata)
              /\ replace_variables body
                   (collect_variables metadata output_info)
                 = Ok processed_body
              /\ fs' = fst (write_text
                              (fst (mkdir_parents (files w)
                                      (parent (joinpath (output_base_dir self)
                                                 name))))
                              (joinpath (output_base_dir self) name)
                              (lit "---" ++ [nl]
                               ++ yaml_dump true false (VDict header)
                               ++ lit "---" ++ [nl] ++ processed_body))).

(** [main()]: both directories are [github-copilot] beside the directory
    three levels above the script, whose path is [script_file]
    ([__file__]). *)
Definition main (script_file : Path) : M unit :=
  let script_dir := parent (parent (parent script_file)) in
  let template_dir := joinpath script_dir (lit "github-copilot") in
  let output_base_dir := joinpath script_dir (lit "github-copilot") in
  print (lit "Template directory: " ++ path_str template_dir) ;;
  print (lit "Output base directory: " ++ path_str output_base_dir) ;;
  print [] ;;
  process_all {| template_dir := template_dir;
                 output_base_dir := output_base_dir |}.

End Script.

(* ================================================================== *)
(** * Templates as the specification describes them *)

(** A body read as literal text and placeholders. *)
Inductive segment : Type :=
| Text (t : str)
| Hole (name : str).

Definition render_segment (sg : segment) : str :=
  match sg with
  | Text t => t
  | Hole name => placeholder name
  end.

Definition render (segs : list segment) : str :=
  concat (map render_segment segs).

Definition brace_free (s : str) : bool :=
  negb (mem lbrace s) && negb (mem rbrace s).

Section Fill.

Context {platform : Platform}.

(** What the specification asks of substitution: a placeholder whose name
    is a key of the mapping becomes the text of its value, everything else
    stays. *)
Definition fill (variables : dict) (sg : segment) : segment :=
  match sg with
  | Text t => Text t
  | Hole name =>
      match dict_get name variables with
      | Some v => Text (py_str v)
      | None => Hole name
      end
  end.

(** A key without braces whose value, as text, has neither an opening
    brace nor a backslash. *)
Definition plain_variable (kv : str * value) : bool :=
  brace_free (fst kv)
  && negb (mem lbrace (py_str (snd kv)))
  && negb (mem backslash (py_str (snd kv))).

End Fill.

(** Literal text without an opening brace, placeholder names without
    braces. *)
Definition plain_segment (sg : segment) : bool :=
  match sg with
  | Text t => negb (mem lbrace t)
  | Hole name => brace_free name
  end.

(** The white space at the start of [s] has a newline in it. *)
Fixpoint leading_newline (s : str) : bool :=
  match s with
  | [] => false
  | c :: s' =>
      if N.eqb c nl then true
      else if is_space c then leading_newline s' else false
  end.

(** [s] has a character that is not white space, with no newline in front
    of it. *)
Fixpoint starts_text (s : str) : bool :=
  match s with
  | [] => false
  | c :: s' =>
      if N.eqb c nl then false
      else if is_space c then starts_text s' else true
  end.

(** A replacement string [re.sub] accepts for a match of text [m]. *)
Definition valid_template (repl m : str) : bool :=
  negb (mem backslash repl)
  || match expand_template TText repl m with Some _ => true | None => false end.

(** The first backslash of [repl] is its last character, or stands before
    an ASCII letter that is neither one of the escapes a, b, f, n, r, t, v
    nor the g of a group reference: a replacement every version of [re]
    since 3.7 refuses. *)
Fixpoint bad_escape (repl : str) : bool :=
  match repl with
  | [] => false
  | c :: r =>
      if N.eqb c backslash then
        match r with
        | [] => true
        | e :: _ =>
            is_ascii_letter e && negb (N.eqb e 103)
            && match escape_code e with Some _ => false | None => true end
        end
      else bad_escape r
  end.

(** The path a match takes through a pattern: [path prog pos t s' caps r]
    when [prog], started at index [pos], consumes exactly [t] in front of
    the rest [s'] and extends the group boundaries [caps] to [r]. *)
Inductive path : list node -> nat -> str -> str -> list nat -> list nat -> Prop :=
| path_nil pos s' caps : path [] pos [] s' caps caps
| path_bol rest t s' caps r :
    path rest 0 t s' caps r -> path (Bol :: rest) 0 t s' caps r
| path_eol rest pos t s' caps r :
    t ++ s' = [] \/ t ++ s' = [nl] ->
    path rest pos t s' caps r -> path (Eol :: rest) pos t s' caps r
| path_lit c rest pos t s' caps r :
    path rest (S pos) t s' caps r -> path (Lit c :: rest) pos (c :: t) s' caps r
| path_save rest pos t s' caps r :
    path rest pos t s' (pos :: caps) r -> path (Save :: rest) pos t s' caps r
| path_star g cls u rest pos t s' caps r :
    forallb cls u = true ->
    path rest (pos + length u) t s' caps r ->
    path (Star g cls :: rest) pos (u ++ t) s' caps r.

(* ================================================================== *)
(** * A small platform to run the script on

    Files are a list of paths with their text, directories are implicit,
    and the YAML loader knows a handful of documents. *)

Module Example.

Definition lookup_file (p : str) (fs : list (str * str)) : option str :=
  option_map snd (List.find (fun e => str_eqb p (fst e)) fs).

Fixpoint store_file (p text : str) (fs : list (str * str)) : list (str * str) :=
  match fs with
  | [] => [(p, text)]
  | (q, old) :: fs' =>
      if str_eqb p q then (q, text) :: fs' else (q, old) :: store_file p text fs'
  end.

Definition slash : char := 47%N.

(** The path up to its last slash. *)
Fixpoint dirname (p : str) : str :=
  match p with
  | [] => []
  | c :: p' =>
      if mem slash p' then c :: dirname p'
      else []
  end.

Definition endswith (suffix s : str) : bool := startswith (rev suffix) (rev s).

Definition type_name (v : value) : str :=
  match v with
  | VNone => lit "NoneType"
  | VBool _ => lit "bool"
  | VInt _ => lit "int"
  | VStr _ => lit "str"
  | VList _ => lit "list"
  | VDict _ => lit "dict"
  | VOther _ _ => lit "object"
  end.

Definition quote : char := 39%N.

Definition message (e : exn) : str :=
  match e with
  | YAMLError msg => msg
  | AttributeError obj attr =>
      [quote] ++ type_name obj ++ [quote] ++ lit " object has no attribute "
      ++ [quote] ++ attr ++ [quote]
  | TypeError operand =>
      lit "unsupported operand type(s) for /: " ++ [quote] ++ lit "PosixPath"
      ++ [quote] ++ lit " and " ++ [quote] ++ type_name operand ++ [quote]
  | ReError repl => lit "bad replacement " ++ repl
  | OtherError name msg => msg
  end.

Definition header1 : str :=
  lit "output:" ++ [nl] ++ lit "  file_name: out.md" ++ [nl] ++ lit "  a: 2"
  ++ [nl] ++ lit "metadata:" ++ [nl] ++ lit "  a: 1".

Definition header1_value : value :=
  VDict [(lit "output", VDict [(lit "file_name", VStr (lit "out.md"));
                               (lit "a", VInt 2)]);
         (lit "metadata", VDict [(lit "a", VInt 1)])].

Definition load (text : str) : outcome value :=
  if str_eqb text [] then Ok VNone
  else if str_eqb text (lit "# nothing here") then Ok VNone
  else if str_eqb text (lit "just text") then Ok (VStr (lit "just text"))
  else if str_eqb text (lit "a: [") then
    Raise (YAMLError (lit "while parsing a flow node"))
  else if str_eqb text (lit "metadata: {name: Alice}") then
    Ok (VDict [(lit "metadata", VDict [(lit "name", VStr (lit "Alice"))])])
  else if str_eqb text (lit "output: {a: 2}") then
    Ok (VDict [(lit "output", VDict [(lit "a", VInt 2)])])
  else if str_eqb text header1 then Ok header1_value
  else Raise (OtherError (lit "NotImplementedError") text).

(** [a <= b] in the order Python sorts text by. *)
Fixpoint str_leb (a b : str) : bool :=
  match a, b with
  | [], _ => true
  | _ :: _, [] => false
  | x :: a', y :: b' => N.ltb x y || (N.eqb x y && str_leb a' b')
  end.

Fixpoint insert_item (kv : str * value) (d : list (str * value))
  : list (str * value) :=
  match d with
  | [] => [kv]
  | kv' :: d' =>
      if str_leb (fst kv) (fst kv') then kv :: d else kv' :: insert_item kv d'
  end.

(** [sorted(d.items())], in every mapping of the value. *)
Fixpoint sort_keys_of (v : value) : value :=
  match v with
  | VDict d =>
      VDict ((fix go (d : list (str * value)) : list (str * value) :=
                match d with
                | [] => []
                | (k, x) :: d' => insert_item (k, sort_keys_of x) (go d')
                end) d)
  | VList l =>
      VList ((fix go (l : list value) : list value :=
                match l with
                | [] => []
                | x :: l' => sort_keys_of x :: go l'
                end) l)
  | _ => v
  end.

(** Block style, one entry a line, nested mappings indented. *)
Fixpoint dump (indent : str) (v : value) : str :=
  match v with
  | VDict d =>
      (fix entries (d : list (str * value)) : str :=
         match d with
         | [] => []
         | (k, x) :: d' =>
             indent ++ k ++ lit ":"
             ++ match x with
                | VDict _ => [nl] ++ dump (indent ++ lit "  ") x
                | VStr s => lit " " ++ s ++ [nl]
                | VInt z => lit " " ++ lit (NilZero.string_of_int (Z.to_int z))
                            ++ [nl]
                | _ => lit " ?" ++ [nl]
                end
             ++ entries d'
         end) d
  | _ => lit "?" ++ [nl]
  end.

(** The text [dump] writes for one entry of the top mapping. *)
Definition entry (k : str) (x : value) : str :=
  k ++ lit ":"
  ++ match x with
     | VDict _ => [nl] ++ dump (lit "  ") x
     | VStr s => lit " " ++ s ++ [nl]
     | VInt z => lit " " ++ lit (NilZero.string_of_int (Z.to_int z)) ++ [nl]
     | _ => lit " ?" ++ [nl]
     end.

#[local] Instance toy : Platform := {|
  FS := list (str * str);
  Path := str;
  path_str := fun p => p;
  joinpath := fun base name => base ++ [slash] ++ name;
  parent := dirname;
  glob_md := fun fs dir =>
    Ok (filter (fun p => str_eqb (dirname p) dir && endswith (lit ".md") p)
          (map fst fs));
  read_text := fun fs p =>
    match lookup_file p fs with
    | Some text => Ok text
    | None => Raise (OtherError (lit "FileNotFoundError") p)
    end;
  mkdir_parents := fun fs _ => (fs, None);
  write_text := fun fs p text => (store_file p text fs, None);
  safe_load := load;
  yaml_dump := fun _ sort_keys v =>
    dump [] (if sort_keys then sort_keys_of v else v);
  container_str := fun _ => lit "...";
  exn_str := message
|}.

Definition processor : AgentTemplateProcessor :=
  {| template_dir := lit "tpl"; output_base_dir := lit "out" |}.

(** A template with output and metadata, one without a header, one whose
    header is not YAML, one whose header is a plain string, one without
    an output entry. *)
Definition good_md : str :=
  lit "---" ++ [nl] ++ header1 ++ [nl] ++ lit "---" ++ [nl]
  ++ lit "Hello {{a}} and {{b}}".
Definition plain_md : str := lit "no header here".
Definition broken_md : str :=
  lit "---" ++ [nl] ++ lit "a: [" ++ [nl] ++ lit "---" ++ [nl] ++ lit "text".
Definition scalar_md : str :=
  lit "---" ++ [nl] ++ lit "just text" ++ [nl] ++ lit "---" ++ [nl] ++ lit "text".
Definition comment_md : str :=
  lit "---" ++ [nl] ++ lit "# nothing here" ++ [nl] ++ lit "---" ++ [nl]
  ++ lit "text".
Definition no_output_md : str :=
  lit "---" ++ [nl] ++ lit "metadata: {name: Alice}" ++ [nl] ++ lit "---" ++ [nl]
  ++ lit "Hello {{name}}".
Definition no_name_md : str :=
  lit "---" ++ [nl] ++ lit "output: {a: 2}" ++ [nl] ++ lit "---" ++ [nl]
  ++ lit "Hello {{a}}".
Definition unclosed_md : str :=
  lit "---" ++ [nl] ++ lit "a: 1" ++ [nl] ++ lit "---".

Definition disk : list (str * str) :=
  [(lit "tpl/good.md", good_md); (lit "tpl/plain.md", plain_md);
   (lit "tpl/broken.md", broken_md); (lit "tpl/scalar.md", scalar_md);
   (lit "tpl/no_output.md", no_output_md); (lit "tpl/no_name.md", no_name_md)].

Definition start : world := World (disk : FS) [].

End Example.

(** The same platform with a loader that knows a few more headers, the
    ill-typed ones, and with a directory and a file that cannot be
    written. *)
Module Cases.

Definition load (text : str) : outcome value :=
  if str_eqb text (lit "{output: {file_name: out.md}, metadata: }") then
    Ok (VDict [(lit "output", VDict [(lit "file_name", VStr (lit "out.md"))]);
               (lit "metadata", VNone)])
  else if str_eqb text (lit "output: {file_name: 5}") then
    Ok (VDict [(lit "output", VDict [(lit "file_name", VInt 5)])])
  else if str_eqb text (lit "output: {file_name: 0}") then
    Ok (VDict [(lit "output", VDict [(lit "file_name", VInt 0)])])
  else if str_eqb text (lit "output: ") then
    Ok (VDict [(lit "output", VNone)])
  else if str_eqb text (lit "output: {file_name: ro.md}") then
    Ok (VDict [(lit "output", VDict [(lit "file_name", VStr (lit "ro.md"))])])
  else if str_eqb text (lit "output: notes.md") then
    Ok (VDict [(lit "output", VStr (lit "notes.md"))])
  else if str_eqb text (lit "output: {file_name: out.md, p: C:\Users}") then
    Ok (VDict [(lit "output",
                VDict [(lit "file_name", VStr (lit "out.md"));
                       (lit "p", VStr (lit "C:\Users"))])])
  else Example.load text.

#[local] Instance toy : Platform := {|
  FS := list (str * str);
  Path := str;
  path_str := fun p => p;
  joinpath := fun base name => base ++ [Example.slash] ++ name;
  parent := Example.dirname;
  glob_md := fun fs dir =>
    Ok (filter (fun p => str_eqb (Example.dirname p) dir
                         && Example.endswith (lit ".md") p)
          (map fst fs));
  read_text := fun fs p =>
    match Example.lookup_file p fs with
    | Some text => Ok text
    | None => Raise (OtherError (lit "FileNotFoundError") p)
    end;
  mkdir_parents := fun fs p =>
    if str_eqb p (lit "locked")
    then (fs, Some (OtherError (lit "PermissionError") p))
    else (fs, None);
  write_text := fun fs p text =>
    if Example.endswith (lit "/ro.md") p
    then (fs, Some (OtherError (lit "PermissionError") p))
    else (Example.store_file p text fs, None);
  safe_load := load;
  yaml_dump := fun _ sort_keys v =>
    Example.dump [] (if sort_keys then Example.sort_keys_of v else v);
  container_str := fun _ => lit "...";
  exn_str := Example.message
|}.

Definition doc (header body : str) : str :=
  lit "---" ++ [nl] ++ header ++ [nl] ++ lit "---" ++ [nl] ++ body.

Definition disk : list (str * str) :=
  [(lit "tpl/null_metadata.md",
    doc (lit "{output: {file_name: out.md}, metadata: }") (lit "text"));
   (lit "tpl/number_name.md", doc (lit "output: {file_name: 5}") (lit "text"));
   (lit "tpl/zero_name.md", doc (lit "output: {file_name: 0}") (lit "text"));
   (lit "tpl/null_output.md", doc (lit "output: ") (lit "text"));
   (lit "tpl/text_output.md", doc (lit "output: notes.md") (lit "text"));
   (lit "tpl/windows.md",
    doc (lit "output: {file_name: out.md, p: C:\Users}") (lit "text"));
   (lit "tpl/date.md", doc (lit "when: 2001-13-45") (lit "text"));
   (lit "tpl/ro.md", doc (lit "output: {file_name: ro.md}") (lit "text"));
   (lit "repo/github-copilot/plain.md", lit "no header here")].

Definition start : world := World (disk : FS) [].

Definition processor : AgentTemplateProcessor :=
  {| template_dir := lit "tpl"; output_base_dir := lit "out" |}.

Definition locked : AgentTemplateProcessor :=
  {| template_dir := lit "tpl"; output_base_dir := lit "locked" |}.

Definition script : str := lit "repo/scripts/agent_template/create.py".
Definition elsewhere : str := lit "tmp/a/b/create.py".

End Cases.

(* ================================================================== *)
(** * Text lemmas *)

Lemma str_eqb_eq (a b : str) : str_eqb a b = true <-> a = b.
Proof.
  revert b; induction a as [|x a IH]; intros [|y b]; simpl;
    try (split; [discriminate | discriminate]); try tauto.
  rewrite andb_true_iff, N.eqb_eq, IH.
  split; [intros [-> ->]; reflexivity | intros H; injection H; auto].
Qed.

Lemma str_eqb_refl (a : str) : str_eqb a a = true.
Proof. apply str_eqb_eq; reflexivity. Qed.

Lemma str_eqb_neq (a b : str) : a <> b -> str_eqb a b = false.
Proof.
  intros H; destruct (str_eqb a b) eqn:E; [|reflexivity].
  apply str_eqb_eq in E; contradiction.
Qed.

Lemma startswith_iff (p s : str) :
  startswith p s = true <-> exists t, s = p ++ t.
Proof.
  revert s; induction p as [|x p IH]; intros s; simpl.
  - split; [intros _; exists s; reflexivity | reflexivity].
  - destruct s as [|y s].
    + split; [discriminate | intros [t H]; discriminate].
    + rewrite andb_true_iff, N.eqb_eq, IH. split.
      * intros [-> [t ->]]; exists t; reflexivity.
      * intros [t H]; injection H as -> ->; split; [reflexivity | exists t; reflexivity].
Qed.

Lemma startswith_app (p t : str) : startswith p (p ++ t) = true.
Proof. apply startswith_iff; exists t; reflexivity. Qed.

Lemma mem_app (c : char) (a b : str) : mem c (a ++ b) = mem c a || mem c b.
Proof. unfold mem; apply existsb_app. Qed.

Lemma mem_false_iff (c : char) (s : str) : mem c s = false <-> ~ In c s.
Proof.
  unfold mem; split.
  - intros H Hin.
    assert (existsb (N.eqb c) s = true) as E
      by (apply existsb_exists; exists c; split; [exact Hin | apply N.eqb_refl]).
    congruence.
  - intros H; destruct (existsb (N.eqb c) s) eqn:E; [|reflexivity].
    apply existsb_exists in E as [x [Hx Ex]]; apply N.eqb_eq in Ex; subst x.
    contradiction.
Qed.

Lemma find_eq (p s : str) :
  find p s = if startswith p s then Some 0
             else match s with
                  | [] => None
                  | _ :: s' => option_map S (find p s')
                  end.
Proof. destruct s; reflexivity. Qed.

(** The first occurrence is not behind any occurrence. *)
Lemma find_le (p a b : str) (n : nat) :
  find p (a ++ p ++ b) = Some n -> n <= length a.
Proof.
  revert n; induction a as [|x a IH]; intros n; rewrite find_eq.
  - simpl app. rewrite startswith_app. intros H; injection H as <-; lia.
  - change ((x :: a) ++ p ++ b) with (x :: (a ++ p ++ b)).
    destruct (startswith p (x :: a ++ p ++ b)).
    + intros H; injection H as <-; lia.
    + destruct (find p (a ++ p ++ b)) as [m|] eqn:E; simpl; [|discriminate].
      intros H; injection H as <-. specialize (IH m eq_refl). simpl; lia.
Qed.

(* ================================================================== *)
(** * The matcher *)

Lemma star_sound g cls k pos s r :
  star g cls k pos s = Some r ->
  exists u s', s = u ++ s' /\ forallb cls u = true
               /\ k (pos + length u) s' = Some r.
Proof.
  revert pos; induction s as [|x s IH]; intros pos; simpl.
  - intros H; exists [], []; simpl; rewrite Nat.add_0_r; auto.
  - assert (k pos (x :: s) = Some r ->
            exists u s', x :: s = u ++ s' /\ forallb cls u = true
                         /\ k (pos + length u) s' = Some r) as Hstop.
    { intros H; exists [], (x :: s); simpl; rewrite Nat.add_0_r; auto. }
    destruct (cls x) eqn:Ex; [|exact Hstop].
    assert (star g cls k (S pos) s = Some r ->
            exists u s', x :: s = u ++ s' /\ forallb cls u = true
                         /\ k (pos + length u) s' = Some r) as Hgo.
    { intros H. destruct (IH _ H) as (u & s' & -> & Hu & Hk).
      exists (x :: u), s'; simpl; rewrite Ex, Hu.
      replace (pos + S (length u)) with (S pos + length u) by lia; auto. }
    destruct g.
    + destruct (star true cls k (S pos) s) eqn:E; [|exact Hstop].
      intros H; injection H as <-. apply Hgo; reflexivity.
    + destruct (k pos (x :: s)) eqn:E.
      * intros H; injection H as <-; apply Hstop; reflexivity.
      * exact Hgo.
Qed.

Lemma run_app_sound p1 p2 pos s caps r :
  run (p1 ++ p2) pos s caps = Some r ->
  exists t s' caps',
    s = t ++ s' /\ path p1 pos t s' caps caps'
    /\ run p2 (pos + length t) s' caps' = Some r.
Proof.
  revert pos s caps; induction p1 as [|n p1 IH]; intros pos s caps; simpl app.
  - intros H; exists [], s, caps; simpl; rewrite Nat.add_0_r.
    repeat split; [constructor | exact H].
  - destruct n as [| |c|g cls|]; cbn [run].
    + destruct (Nat.eqb pos 0) eqn:E; [|discriminate].
      apply Nat.eqb_eq in E; subst pos. intros H.
      destruct (IH _ _ _ H) as (t & s' & caps' & -> & Hp & Hr).
      exists t, s', caps'; repeat split; [constructor; exact Hp | exact Hr].
    + intros H.
      assert (run (p1 ++ p2) pos s caps = Some r /\ (s = [] \/ s = [nl]))
        as [H' Hs].
      { destruct s as [|c [|d s]]; [auto | | discriminate].
        destruct (N.eqb c nl) eqn:E; [|discriminate].
        apply N.eqb_eq in E; subst c; auto. }
      destruct (IH _ _ _ H') as (t & s' & caps' & -> & Hp & Hr).
      exists t, s', caps'; repeat split; [constructor; assumption | exact Hr].
    + destruct s as [|x s]; [discriminate|].
      destruct (N.eqb x c) eqn:E; [|discriminate].
      apply N.eqb_eq in E; subst x. intros H.
      destruct (IH _ _ _ H) as (t & s' & caps' & -> & Hp & Hr).
      exists (c :: t), s', caps'; simpl.
      replace (pos + S (length t)) with (S pos + length t) by lia.
      repeat split; [constructor; exact Hp | exact Hr].
    + intros H. apply star_sound in H as (u & s1 & -> & Hu & H).
      destruct (IH _ _ _ H) as (t & s' & caps' & -> & Hp & Hr).
      exists (u ++ t), s', caps'. rewrite length_app, Nat.add_assoc, app_assoc.
      repeat split; [constructor; assumption | exact Hr].
    + intros H.
      destruct (IH _ _ _ H) as (t & s' & caps' & -> & Hp & Hr).
      exists t, s', caps'; repeat split; [constructor; exact Hp | exact Hr].
Qed.

(** A greedy star of any character takes the whole rest when the pattern
    behind it accepts the end of the text. *)
Lemma star_any_all k pos s r :
  k (pos + length s) [] = Some r -> star true any_char k pos s = Some r.
Proof.
  revert pos; induction s as [|x s IH]; intros pos; simpl.
  - rewrite Nat.add_0_r; auto.
  - replace (pos + S (length s)) with (S pos + length s) by lia.
    intros H; rewrite (IH _ H); reflexivity.
Qed.

Lemma run_body_group pos s caps :
  run [Save; Star true any_char; Save; Eol] pos s caps
  = Some ((pos + length s) :: pos :: caps).
Proof. cbn [run]. apply star_any_all. reflexivity. Qed.

Lemma slice_middle (a b c : str) :
  slice (a ++ b ++ c) (length a) (length a + length b) = b.
Proof.
  unfold slice. rewrite skipn_app, skipn_all, Nat.sub_diag; simpl.
  replace (length a + length b - length a) with (length b) by lia.
  rewrite firstn_app, firstn_all, Nat.sub_diag; simpl. apply app_nil_r.
Qed.

(** What a match of the front matter pattern looks like: a header is found
    only in a text that starts with a line of three dashes and has a second
    such line, each ended by a newline; the groups are the text between the
    two lines and the text behind the second. *)
Lemma match_frontmatter_shape (content g1 g2 : str) :
  match_frontmatter content = Some (g1, g2) ->
  exists w1 w2,
    forallb is_space w1 = true /\ forallb is_space w2 = true
    /\ content = lit "---" ++ w1 ++ [nl] ++ g1
                 ++ [nl] ++ lit "---" ++ w2 ++ [nl] ++ g2.
Proof.
  unfold match_frontmatter, re_match.
  destruct (run frontmatter_pattern 0 content []) as [r|] eqn:E;
    [|discriminate].
  change frontmatter_pattern with
    ([Bol; Lit dash; Lit dash; Lit dash; Star true is_space; Lit nl;
      Save; Star false any_char; Save;
      Lit nl; Lit dash; Lit dash; Lit dash; Star true is_space; Lit nl]
     ++ [Save; Star true any_char; Save; Eol]) in E.
  apply run_app_sound in E as (t & s' & caps' & -> & Hp & Hr).
  rewrite run_body_group in Hr; injection Hr as <-.
  repeat match goal with
         | H : path (_ :: _) _ _ _ _ _ |- _ => inversion H; clear H; subst
         | H : path [] _ _ _ _ _ |- _ => inversion H; clear H; subst
         end.
  remember ([dash; dash; dash] ++ u ++ [nl]) as A eqn:HA.
  remember ([nl] ++ [dash; dash; dash] ++ u1 ++ [nl]) as B eqn:HB.
  assert ((dash :: dash :: dash
           :: u ++ nl :: u0 ++ nl :: dash :: dash :: dash :: u1 ++ [nl])
          = A ++ u0 ++ B) as Hc.
  { subst A B; simpl. repeat (rewrite <- app_assoc; simpl). reflexivity. }
  rewrite Hc.
  replace (S (3 + length u)) with (length A)
    by (subst A; simpl; rewrite length_app; simpl; lia).
  cbn [option_map rev app].
  replace (slice ((A ++ u0 ++ B) ++ s') (length A) (length A + length u0))
    with u0
    by (rewrite <- !app_assoc; symmetry; apply slice_middle).
  replace (slice ((A ++ u0 ++ B) ++ s') (length (A ++ u0 ++ B))
             (length (A ++ u0 ++ B) + length s'))
    with s'
    by (rewrite <- (app_nil_r s') at 2; rewrite slice_middle; reflexivity).
  intros H; injection H as <- <-.
  exists u, u1. split; [assumption|]. split; [assumption|].
  subst A B. change (lit "---") with [dash; dash; dash].
  simpl. repeat (rewrite <- app_assoc; simpl). reflexivity.
Qed.

Example match_doc1 : match_frontmatter doc1 = Some (lit "a: 1", lit "body").
Proof. vm_compute. reflexivity. Qed.

(** A text that does not begin with three dashes has no header. *)
Lemma no_leading_dashes (content : str) :
  startswith (lit "---") content = false -> match_frontmatter content = None.
Proof.
  intros H. destruct (match_frontmatter content) as [[g1 g2]|] eqn:E;
    [|reflexivity].
  apply match_frontmatter_shape in E as (w1 & w2 & _ & _ & ->).
  rewrite startswith_app in H; discriminate.
Qed.

(* ================================================================== *)
(** * The header parser *)

Section Parser.

Context {platform : Platform}.

(** The parser only prints: it leaves the files alone. *)
Lemma parse_frontmatter_files (content : str) (w : world) :
  files (snd (parse_frontmatter content w)) = files w.
Proof.
  unfold parse_frontmatter.
  destruct (match_frontmatter content) as [[g1 g2]|]; [|reflexivity].
  unfold try_except, bind, lift, ret, raise, print.
  destruct (safe_load g1) as [v|e]; [reflexivity|].
  destruct (is_yaml_error e); reflexivity.
Qed.

(** C4. When the front matter pattern does not match at the start of the
    text, the parser returns an empty mapping and the whole text, and prints
    nothing.  When the pattern matches but the YAML loader raises a
    [YAMLError] on the block, the parser prints a warning that carries the
    error and returns an empty mapping with the whole original text, the
    delimiter lines included. *)
Theorem parse_frontmatter_fallback (content : str) (w : world) :
  (match_frontmatter content = None ->
   parse_frontmatter content w = (Ok (VDict [], content), w))
  /\ (forall g1 g2 msg,
        match_frontmatter content = Some (g1, g2) ->
        safe_load g1 = Raise (YAMLError msg) ->
        parse_frontmatter content w
        = (Ok (VDict [], content),
           say (lit "Warning: YAML parse error: " ++ exn_str (YAMLError msg))
             w)).
Proof.
  unfold parse_frontmatter; split.
  - intros ->; reflexivity.
  - intros g1 g2 msg -> Hload.
    unfold try_except, bind, lift; rewrite Hload; reflexivity.
Qed.

(** C10. When the block between the delimiter lines loads as YAML null, the
    parser returns an empty mapping together with the body and prints
    nothing; and the header the parser returns is never the null value. *)
Theorem parse_frontmatter_null (content : str) (w : world) :
  (forall g1 g2,
     match_frontmatter content = Some (g1, g2) ->
     safe_load g1 = Ok VNone ->
     parse_frontmatter content w = (Ok (VDict [], g2), w))
  /\ (forall header body w',
        parse_frontmatter content w = (Ok (header, body), w') ->
        header <> VNone).
Proof.
  unfold parse_frontmatter; split.
  - intros g1 g2 -> Hload.
    unfold try_except, bind, lift; rewrite Hload; reflexivity.
  - intros header body w'.
    destruct (match_frontmatter content) as [[g1 g2]|].
    + unfold try_except, bind, lift, ret, raise, print.
      destruct (safe_load g1) as [v|e].
      * intros H; injection H as <- _ _.
        destruct (truthy v) eqn:T; [|discriminate].
        intros ->; discriminate.
      * destruct (is_yaml_error e); [|discriminate].
        intros H; injection H as <- _ _; discriminate.
    + intros H; injection H as <- _ _; discriminate.
Qed.

(** C9. A header is recognised only in a text of the shape: three dashes,
    white space, a newline, the block, a newline, three dashes, white space,
    a newline, the body.  So when the first line of three dashes behind the
    start, the closing one, ends the text with no newline behind it, the
    parser finds no header and returns an empty mapping with the whole
    text. *)
Theorem unterminated_closing_line (content : str) (w : world) :
  (forall g1 g2,
     match_frontmatter content = Some (g1, g2) ->
     exists w1 w2,
       forallb is_space w1 = true /\ forallb is_space w2 = true
       /\ content = lit "---" ++ w1 ++ [nl] ++ g1
                    ++ [nl] ++ lit "---" ++ w2 ++ [nl] ++ g2)
  /\ (forall n,
        find (nl :: lit "---") content = Some n ->
        n + 4 = length content ->
        match_frontmatter content = None
        /\ parse_frontmatter content w = (Ok (VDict [], content), w)).
Proof.
  split; [intros g1 g2; apply match_frontmatter_shape|].
  intros n Hfind Hlen.
  assert (match_frontmatter content = None) as Hnone.
  { destruct (match_frontmatter content) as [[g1 g2]|] eqn:E; [|reflexivity].
    exfalso.
    apply match_frontmatter_shape in E as (w1 & w2 & _ & _ & Hc).
    assert (content = (lit "---" ++ w1 ++ [nl] ++ g1) ++ (nl :: lit "---")
                      ++ (w2 ++ [nl] ++ g2)) as Hc'.
    { rewrite Hc. rewrite <- !app_assoc. reflexivity. }
    rewrite Hc' in Hfind, Hlen. apply find_le in Hfind.
    change (lit "---") with [dash; dash; dash] in *.
    rewrite !length_app in Hlen. rewrite !length_app in Hfind.
    cbn [length] in Hlen, Hfind. lia. }
  split; [exact Hnone|].
  unfold parse_frontmatter; rewrite Hnone; reflexivity.
Qed.

End Parser.

(* ================================================================== *)
(** * Substitution *)

Lemma special_not_alnum (c : char) :
  is_special c = true -> is_ascii_letter c || is_digit c = false.
Proof.
  unfold is_special; simpl. rewrite !orb_true_iff.
  intros H; repeat destruct H as [H|H]; try discriminate;
    apply N.eqb_eq in H; subst c; reflexivity.
Qed.

Lemma meta_special (c : char) : is_meta c = true -> is_special c = true.
Proof.
  unfold is_meta; simpl. rewrite !orb_true_iff.
  intros H; repeat destruct H as [H|H]; try discriminate;
    apply N.eqb_eq in H; subst c; reflexivity.
Qed.

(** [re.escape] does its job: the escaped key compiles to the key. *)
Lemma literal_of_escape (key rest : str) :
  literal_of (re_escape key ++ rest) = option_map (app key) (literal_of rest).
Proof.
  induction key as [|c key IH]; simpl.
  - destruct (literal_of rest); reflexivity.
  - destruct (is_special c) eqn:Es.
    + simpl. rewrite (special_not_alnum c Es), IH.
      destruct (literal_of rest); reflexivity.
    + simpl.
      assert (N.eqb c backslash = false) as ->.
      { destruct (N.eqb c backslash) eqn:E; [|reflexivity].
        apply N.eqb_eq in E; subst c; discriminate. }
      assert (is_meta c = false) as ->.
      { destruct (is_meta c) eqn:E; [|reflexivity].
        apply meta_special in E; congruence. }
      rewrite IH. destruct (literal_of rest); reflexivity.
Qed.

Lemma literal_of_placeholder_pattern (key : str) :
  literal_of (placeholder_pattern key) = Some (placeholder key).
Proof.
  unfold placeholder_pattern, placeholder.
  cbn -[re_escape]. rewrite literal_of_escape. reflexivity.
Qed.

Lemma expand_template_plain (repl m : str) :
  mem backslash repl = false -> expand_template TText repl m = Some repl.
Proof.
  induction repl as [|c repl IH]; [reflexivity|].
  change (mem backslash (c :: repl))
    with (N.eqb backslash c || mem backslash repl).
  intros H. apply orb_false_iff in H as [Hc Hr]. rewrite N.eqb_sym in Hc.
  cbn [expand_template]. rewrite Hc. cbn [negb]. rewrite (IH Hr); reflexivity.
Qed.

Lemma sub_scan_skip (p ins x s : str) :
  sub_scan p ins (length x) (x ++ s) = sub_scan p ins 0 s.
Proof.
  induction x as [|c x IH]; simpl; [|exact IH].
  destruct s; reflexivity.
Qed.

(** At a match the replacement is inserted, not scanned, and the scan goes
    on behind the match. *)
Lemma sub_scan_hit (c : char) (p ins s : str) :
  sub_scan (c :: p) ins 0 ((c :: p) ++ s) = ins ++ sub_scan (c :: p) ins 0 s.
Proof.
  cbn [app sub_scan].
  change (c :: p ++ s) with ((c :: p) ++ s). rewrite startswith_app.
  replace (length (c :: p) - 1) with (length p) by (cbn [length]; lia).
  rewrite sub_scan_skip. reflexivity.
Qed.

Lemma sub_scan_miss (p ins : str) (c : char) (s : str) :
  startswith p (c :: s) = false ->
  sub_scan p ins 0 (c :: s) = c :: sub_scan p ins 0 s.
Proof. intros H; cbn [sub_scan]; rewrite H; reflexivity. Qed.

(** A pass over a text without the pattern changes nothing. *)
Lemma sub_scan_absent (p ins s : str) :
  find p s = None -> sub_scan p ins 0 s = s.
Proof.
  induction s as [|c s IH]; [reflexivity|].
  rewrite find_eq. destruct (startswith p (c :: s)) eqn:E; [discriminate|].
  destruct (find p s); [discriminate|]. intros _.
  rewrite sub_scan_miss, IH; auto.
Qed.

(** A pass copies the text up to the first match, inserts the replacement
    and goes on behind the match. *)
Lemma sub_scan_first (c : char) (p ins s : str) (n : nat) :
  find (c :: p) s = Some n ->
  sub_scan (c :: p) ins 0 s
  = firstn n s ++ ins
    ++ sub_scan (c :: p) ins 0 (skipn (n + length (c :: p)) s).
Proof.
  revert n; induction s as [|x s IH]; intros n; rewrite find_eq.
  - simpl; discriminate.
  - destruct (startswith (c :: p) (x :: s)) eqn:E.
    + intros H; injection H as <-.
      apply startswith_iff in E as [t E]. rewrite E.
      rewrite sub_scan_hit.
      change (0 + length (c :: p)) with (length (c :: p)).
      rewrite skipn_app, skipn_all, Nat.sub_diag. reflexivity.
    + destruct (find (c :: p) s) as [m|]; [|discriminate].
      simpl option_map. intros H; injection H as <-.
      rewrite sub_scan_miss by exact E.
      rewrite (IH m eq_refl). reflexivity.
Qed.

(** A pattern that starts with a brace matches nowhere in a text without
    that brace. *)
Lemma sub_scan_text (p ins t s : str) :
  mem lbrace t = false ->
  sub_scan (lbrace :: p) ins 0 (t ++ s) = t ++ sub_scan (lbrace :: p) ins 0 s.
Proof.
  induction t as [|c t IH]; [reflexivity|].
  change (mem lbrace (c :: t)) with (N.eqb lbrace c || mem lbrace t).
  intros H. apply orb_false_iff in H as [Hc Ht].
  cbn [app]. rewrite sub_scan_miss, (IH Ht); [reflexivity|].
  cbn [startswith]. rewrite Hc; reflexivity.
Qed.

Lemma brace_free_cons (c : char) (s : str) :
  brace_free (c :: s) = true ->
  N.eqb lbrace c = false /\ N.eqb rbrace c = false /\ brace_free s = true.
Proof.
  unfold brace_free.
  change (mem lbrace (c :: s)) with (N.eqb lbrace c || mem lbrace s).
  change (mem rbrace (c :: s)) with (N.eqb rbrace c || mem rbrace s).
  destruct (N.eqb lbrace c), (N.eqb rbrace c); cbn [orb negb andb];
    rewrite ?andb_false_r; try discriminate.
  intros H; repeat split; exact H.
Qed.

(** Two placeholders with names without braces start at the same place
    only when they are the same. *)
Lemma placeholder_name_eq (k h rest : str) :
  brace_free k = true -> brace_free h = true ->
  startswith (k ++ [rbrace; rbrace]) (h ++ [rbrace; rbrace] ++ rest) = true ->
  k = h.
Proof.
  revert h; induction k as [|c k IH]; intros [|d h] Hk Hh; cbn [app startswith].
  - reflexivity.
  - apply brace_free_cons in Hh as (_ & Hd & _). rewrite Hd; discriminate.
  - apply brace_free_cons in Hk as (_ & Hc & _).
    rewrite N.eqb_sym, Hc; discriminate.
  - apply brace_free_cons in Hk as (_ & _ & Hk).
    apply brace_free_cons in Hh as (_ & _ & Hh).
    intros H; apply andb_true_iff in H as [E H].
    apply N.eqb_eq in E; subst d. f_equal. apply IH; assumption.
Qed.

Lemma sub_scan_other_hole (k h ins rest : str) :
  brace_free k = true -> brace_free h = true -> k <> h ->
  sub_scan (placeholder k) ins 0 (placeholder h ++ rest)
  = placeholder h ++ sub_scan (placeholder k) ins 0 rest.
Proof.
  intros Hk Hh Hne. unfold placeholder. cbn [app].
  rewrite sub_scan_miss.
  2:{ cbn [startswith]. rewrite N.eqb_refl. cbn [andb].
      destruct (startswith (k ++ [rbrace; rbrace])
                  ((h ++ [rbrace; rbrace]) ++ rest)) eqn:E; [|reflexivity].
      rewrite <- app_assoc in E. apply placeholder_name_eq in E; auto.
      contradiction. }
  rewrite sub_scan_miss.
  2:{ cbn [startswith]. rewrite N.eqb_refl. cbn [andb].
      destruct h as [|d h]; cbn [app startswith].
      - reflexivity.
      - apply brace_free_cons in Hh as (Hd & _ & _). rewrite Hd; reflexivity. }
  rewrite sub_scan_text; [reflexivity|].
  rewrite mem_app. unfold brace_free in Hh.
  apply andb_true_iff in Hh as [Hl _]. apply negb_true_iff in Hl.
  rewrite Hl; reflexivity.
Qed.

Section Substitution.

Context {platform : Platform}.

Lemma re_sub_plain (key repl s : str) :
  mem backslash repl = false ->
  re_sub (placeholder_pattern key) repl s
  = Ok (sub_scan (placeholder key) repl 0 s).
Proof.
  intros H; unfold re_sub.
  rewrite literal_of_placeholder_pattern, H; reflexivity.
Qed.

(** One pass over a plain body fills the placeholders of its key. *)
Lemma sub_scan_segments (k : str) (v : value) (segs : list segment) :
  brace_free k = true ->
  forallb plain_segment segs = true ->
  sub_scan (placeholder k) (py_str v) 0 (render segs)
  = render (map (fill [(k, v)]) segs).
Proof.
  intros Hk; induction segs as [|sg segs IH]; [reflexivity|].
  cbn [forallb]. intros H; apply andb_true_iff in H as [Hsg Hsegs].
  unfold render in *. cbn [map concat].
  destruct sg as [t|h]; cbn [render_segment fill dict_get].
  - apply negb_true_iff in Hsg.
    change (placeholder k) with (lbrace :: (lbrace :: k ++ [rbrace; rbrace])).
    rewrite sub_scan_text by exact Hsg. cbn [render_segment]. f_equal.
    apply IH; exact Hsegs.
  - destruct (str_eqb h k) eqn:E; cbn [render_segment].
    + apply str_eqb_eq in E; subst h.
      change (placeholder k) with (lbrace :: (lbrace :: k ++ [rbrace; rbrace])).
      rewrite sub_scan_hit. f_equal. apply IH; exact Hsegs.
    + rewrite sub_scan_other_hole; auto.
      * f_equal. apply IH; exact Hsegs.
      * intros ->. rewrite str_eqb_refl in E; discriminate.
Qed.

Lemma fill_plain (k : str) (v : value) (segs : list segment) :
  mem lbrace (py_str v) = false ->
  forallb plain_segment segs = true ->
  forallb plain_segment (map (fill [(k, v)]) segs) = true.
Proof.
  intros Hv; induction segs as [|sg segs IH]; [reflexivity|].
  cbn [forallb map]. intros H; apply andb_true_iff in H as [Hsg Hsegs].
  rewrite (IH Hsegs), andb_true_r.
  destruct sg as [t|h]; cbn [fill dict_get]; [exact Hsg|].
  destruct (str_eqb h k); [|exact Hsg].
  cbn [plain_segment]. rewrite Hv; reflexivity.
Qed.

Lemma fill_cons (k : str) (v : value) (rest : dict) (sg : segment) :
  fill rest (fill [(k, v)] sg) = fill ((k, v) :: rest) sg.
Proof.
  destruct sg as [t|h]; cbn [fill dict_get]; [reflexivity|].
  destruct (str_eqb h k); reflexivity.
Qed.

(** C2, as the code has it.  On a body made of literal text without an
    opening brace and of placeholders whose names have no braces, and for a
    mapping whose keys have no braces and whose values, as text, have
    neither an opening brace nor a backslash, substitution succeeds and its
    result is the body with every placeholder whose name is a key of the
    mapping replaced by the text [str(value)] of that key's value, and with
    all literal text and every placeholder of a name that is not a key left
    as they are. *)
Theorem replace_variables_plain (segs : list segment) (variables : dict) :
  forallb plain_segment segs = true ->
  forallb plain_variable variables = true ->
  replace_variables (render segs) variables
  = Ok (render (map (fill variables) segs)).
Proof.
  revert segs; induction variables as [|[k v] rest IH]; intros segs Hsegs.
  - intros _. cbn [replace_variables]. f_equal. f_equal.
    rewrite <- (map_id segs) at 1. apply map_ext.
    intros [t|h]; reflexivity.
  - cbn [forallb]. intros H; apply andb_true_iff in H as [Hkv Hrest].
    unfold plain_variable in Hkv; cbn [fst snd] in Hkv.
    apply andb_true_iff in Hkv as [Hkv Hb]. apply andb_true_iff in Hkv as [Hk Hl].
    apply negb_true_iff in Hb, Hl.
    cbn [replace_variables]. rewrite re_sub_plain by exact Hb.
    rewrite sub_scan_segments by assumption.
    rewrite IH; [|apply fill_plain; assumption | exact Hrest].
    rewrite map_map. f_equal. f_equal. apply map_ext. apply fill_cons.
Qed.

End Substitution.

(* ================================================================== *)
(** * Mappings *)

Lemma dict_get_set_same (k : str) (v : value) (d : dict) :
  dict_get k (dict_set k v d) = Some v.
Proof.
  induction d as [|[k' v'] d IH]; simpl.
  - rewrite str_eqb_refl; reflexivity.
  - destruct (str_eqb k k') eqn:E; simpl; rewrite E; [reflexivity | exact IH].
Qed.

Lemma dict_get_set_other (k k' : str) (v : value) (d : dict) :
  str_eqb k k' = false -> dict_get k (dict_set k' v d) = dict_get k d.
Proof.
  intros Hne; induction d as [|[k0 v0] d IH]; simpl.
  - rewrite Hne; reflexivity.
  - destruct (str_eqb k' k0) eqn:E; simpl.
    + apply str_eqb_eq in E; subst k0. rewrite Hne; reflexivity.
    + rewrite IH; reflexivity.
Qed.

Lemma dict_get_absent (k : str) (d : dict) :
  ~ In k (keys d) -> dict_get k d = None.
Proof.
  induction d as [|[k' v'] d IH]; simpl; [reflexivity|].
  intros H. rewrite str_eqb_neq by (intros ->; apply H; left; reflexivity).
  apply IH; intros Hin; apply H; right; exact Hin.
Qed.

(** A loop that copies the items whose key [keep] accepts. *)
Lemma dict_get_copy (keep : str -> bool) (items : dict) :
  NoDup (keys items) ->
  forall (acc : dict) (k : str),
    dict_get k
      (fold_left
         (fun vars kv =>
            if keep (fst kv) then dict_set (fst kv) (snd kv) vars else vars)
         items acc)
    = if keep k
      then match dict_get k items with
           | Some v => Some v
           | None => dict_get k acc
           end
      else dict_get k acc.
Proof.
  induction items as [|[k0 v0] items IH]; intros Hnd acc k.
  - simpl. destruct (keep k); reflexivity.
  - cbn [keys map fst] in Hnd. inversion Hnd as [|? ? Hnotin Hnd']; subst.
    cbn [fold_left fst snd]. rewrite (IH Hnd'). cbn [dict_get].
    destruct (str_eqb k k0) eqn:E.
    + apply str_eqb_eq in E; subst k0.
      rewrite (@dict_get_absent k items Hnotin).
      destruct (keep k); [apply dict_get_set_same | reflexivity].
    + destruct (keep k0); [rewrite dict_get_set_other by exact E|];
        reflexivity.
Qed.

Lemma dict_get_copy_all (items : dict) :
  NoDup (keys items) ->
  forall (acc : dict) (k : str),
    dict_get k
      (fold_left (fun vars kv => dict_set (fst kv) (snd kv) vars) items acc)
    = match dict_get k items with
      | Some v => Some v
      | None => dict_get k acc
      end.
Proof.
  intros H acc k. exact (@dict_get_copy (fun _ => true) items H acc k).
Qed.

Lemma collect_variables_get (metadata output_info : dict) (k : str) :
  NoDup (keys metadata) -> NoDup (keys output_info) ->
  dict_get k (collect_variables metadata output_info)
  = if str_eqb k (lit "file_name") then dict_get k metadata
    else match dict_get k output_info with
         | Some v => Some v
         | None => dict_get k metadata
         end.
Proof.
  intros Hm Ho. unfold collect_variables.
  rewrite (@dict_get_copy (fun key => negb (str_eqb key (lit "file_name")))
             output_info Ho).
  rewrite (@dict_get_copy_all metadata Hm). cbn [dict_get].
  destruct (str_eqb k (lit "file_name")); cbn [negb].
  - destruct (dict_get k metadata); reflexivity.
  - destruct (dict_get k output_info); [reflexivity|].
    destruct (dict_get k metadata); reflexivity.
Qed.

(** C1, as the code has it.  For a [metadata] and an [output] mapping, the
    variables bind every key of [output] other than [file_name] to the
    value [output] gives it, also when [metadata] has the key (output
    wins); a key that only [metadata] has keeps the value of [metadata];
    and the [file_name] entry of [output] is never taken: [file_name] is a
    variable exactly when [metadata] declares it, with the value of
    [metadata]. *)
Theorem collect_variables_precedence (metadata output_info : dict) :
  NoDup (keys metadata) -> NoDup (keys output_info) ->
  (forall k v,
     k <> lit "file_name" ->
     dict_get k output_info = Some v ->
     dict_get k (collect_variables metadata output_info) = Some v)
  /\ (forall k,
        k <> lit "file_name" ->
        dict_get k output_info = None ->
        dict_get k (collect_variables metadata output_info)
        = dict_get k metadata)
  /\ dict_get (lit "file_name") (collect_variables metadata output_info)
     = dict_get (lit "file_name") metadata.
Proof.
  intros Hm Ho. repeat split.
  - intros k v Hk Hget. rewrite collect_variables_get by assumption.
    rewrite (str_eqb_neq Hk), Hget; reflexivity.
  - intros k Hk Hget. rewrite collect_variables_get by assumption.
    rewrite (str_eqb_neq Hk), Hget; reflexivity.
  - rewrite collect_variables_get by assumption.
    rewrite str_eqb_refl; reflexivity.
Qed.

(* ================================================================== *)
(** * The order of the passes *)

Section Passes.

Context {platform : Platform}.

Lemma replace_variables_app (body : str) (first rest : dict) :
  replace_variables body (first ++ rest)
  = match replace_variables body first with
    | Ok r => replace_variables r rest
    | Raise e => Raise e
    end.
Proof.
  revert body; induction first as [|[k v] first IH]; intros body.
  - reflexivity.
  - cbn [app replace_variables].
    destruct (re_sub (placeholder_pattern k) (py_str v) body); [apply IH|].
    reflexivity.
Qed.

Lemma mem_placeholder (c : char) (name : str) :
  N.eqb c lbrace = false -> N.eqb c rbrace = false ->
  mem c (placeholder name) = mem c name.
Proof.
  intros Hl Hr. unfold placeholder. rewrite !mem_app.
  unfold mem at 1 3; cbn [existsb]. rewrite Hl, Hr. cbn [orb].
  apply orb_false_r.
Qed.

(** C3, as the code has it.  Substitution makes one pass of [re.sub] for
    each key, in the order of the mapping, each pass over the result of the
    passes before it.  A pass whose replacement has no backslash leaves a
    text without the placeholder of its key alone; otherwise it copies the
    text in front of the first such placeholder, inserts the replacement
    there without scanning it, and goes on behind the placeholder.  The
    passes of the keys that come later do scan what was inserted: a value
    that is the placeholder of another key has that placeholder substituted
    when the other key comes later in the mapping, and keeps it when the
    other key comes earlier.  The result is a function of the body and of
    the mapping with its order. *)
Theorem replace_variables_passes (body : str) (variables : dict)
  (k : str) (v : value) :
  replace_variables body (variables ++ [(k, v)])
  = match replace_variables body variables with
    | Ok r => re_sub (placeholder_pattern k) (py_str v) r
    | Raise e => Raise e
    end
  /\ (mem backslash (py_str v) = false ->
      (find (placeholder k) body = None ->
       re_sub (placeholder_pattern k) (py_str v) body = Ok body)
      /\ (forall n,
            find (placeholder k) body = Some n ->
            exists r,
              re_sub (placeholder_pattern k) (py_str v)
                (skipn (n + length (placeholder k)) body) = Ok r
              /\ re_sub (placeholder_pattern k) (py_str v) body
                 = Ok (firstn n body ++ py_str v ++ r)))
  /\ (forall other,
        mem backslash other = false ->
        mem backslash (py_str v) = false ->
        replace_variables (placeholder k)
          [(k, VStr (placeholder other)); (other, v)]
        = Ok (py_str v)
        /\ (brace_free k = true -> brace_free other = true -> k <> other ->
            replace_variables (placeholder k)
              [(other, v); (k, VStr (placeholder other))]
            = Ok (placeholder other))).
Proof.
  split; [|split].
  - rewrite replace_variables_app.
    destruct (replace_variables body variables) as [r|e]; [|reflexivity].
    cbn [replace_variables].
    destruct (re_sub (placeholder_pattern k) (py_str v) r); reflexivity.
  - intros Hb. split.
    + intros Hnone. rewrite re_sub_plain by exact Hb.
      rewrite sub_scan_absent by exact Hnone. reflexivity.
    + intros n Hn. rewrite !re_sub_plain by exact Hb.
      eexists; split; [reflexivity|]. f_equal.
      change (placeholder k) with (lbrace :: (lbrace :: k ++ [rbrace; rbrace]))
        in *.
      apply sub_scan_first; exact Hn.
  - intros other Ho Hb.
    assert (mem backslash (placeholder other) = false) as Hp
      by (rewrite mem_placeholder; [exact Ho | reflexivity | reflexivity]).
    assert (forall name ins,
               sub_scan (placeholder name) ins 0 (placeholder name) = ins)
      as Hone.
    { intros name ins. rewrite <- (app_nil_r (placeholder name)) at 2.
      change (placeholder name)
        with (lbrace :: (lbrace :: name ++ [rbrace; rbrace])).
      rewrite sub_scan_hit. apply app_nil_r. }
    split.
    + cbn [replace_variables py_str].
      rewrite re_sub_plain by exact Hp. rewrite Hone.
      rewrite re_sub_plain by exact Hb. rewrite Hone. reflexivity.
    + intros Hk Hother Hne. cbn [replace_variables py_str].
      rewrite re_sub_plain by exact Hb.
      rewrite <- (app_nil_r (placeholder k)) at 1.
      rewrite sub_scan_other_hole by auto.
      cbn [sub_scan]. rewrite app_nil_r.
      rewrite re_sub_plain by exact Hp. rewrite Hone. reflexivity.
Qed.

End Passes.

(* ================================================================== *)
(** * Processing files *)

Section Pipeline.

Context {platform : Platform}.
Variable self : AgentTemplateProcessor.

Lemma appends_ret {A} (a : A) : appends (ret a).
Proof. intros w; exists []; simpl; rewrite app_nil_r; reflexivity. Qed.

Lemma appends_raise {A} (e : exn) : appends (@raise _ A e).
Proof. intros w; exists []; simpl; rewrite app_nil_r; reflexivity. Qed.

Lemma appends_lift {A} (o : outcome A) : appends (lift o).
Proof. intros w; exists []; simpl; rewrite app_nil_r; reflexivity. Qed.

Lemma appends_print (line : str) : appends (print line).
Proof. intros w; exists [line]; reflexivity. Qed.

Lemma appends_fs_read (p : Path) : appends (fs_read p).
Proof. intros w; exists []; simpl; rewrite app_nil_r; reflexivity. Qed.

Lemma appends_fs_update (op : FS -> FS * option exn) : appends (fs_update op).
Proof.
  intros w; exists []; unfold fs_update.
  destruct (op (files w)); simpl; rewrite app_nil_r; reflexivity.
Qed.

Lemma appends_bind {A B} (c : M A) (k : A -> M B) :
  appends c -> (forall a, appends (k a)) -> appends (bind c k).
Proof.
  intros Hc Hk w. unfold bind. destruct (Hc w) as [l1 H1].
  destruct (c w) as [[a|e] w1]; simpl in H1.
  - destruct (Hk a w1) as [l2 H2]. exists (l1 ++ l2).
    rewrite H2, H1, app_assoc; reflexivity.
  - exists l1; exact H1.
Qed.

Lemma appends_try {A} (c : M A) (h : exn -> M A) :
  appends c -> (forall e, appends (h e)) -> appends (try_except c h).
Proof.
  intros Hc Hh w. unfold try_except. destruct (Hc w) as [l1 H1].
  destruct (c w) as [[a|e] w1]; simpl in H1.
  - exists l1; exact H1.
  - destruct (Hh e w1) as [l2 H2]. exists (l1 ++ l2).
    rewrite H2, H1, app_assoc; reflexivity.
Qed.

Lemma appends_parse_frontmatter (content : str) :
  appends (parse_frontmatter content).
Proof.
  unfold parse_frontmatter.
  destruct (match_frontmatter content) as [[g1 g2]|]; [|apply appends_ret].
  apply appends_try.
  - apply appends_bind; [apply appends_lift | intros; apply appends_ret].
  - intros e; destruct (is_yaml_error e); [|apply appends_raise].
    apply appends_bind; [apply appends_print | intros; apply appends_ret].
Qed.

(** Whatever happens to a file, its "Processing" line stays printed. *)
Lemma process_template_prints (f : Path) (w : world) :
  exists lines,
    stdout (snd (process_template self f w))
    = stdout w ++ (lit "Processing: " ++ path_str f) :: lines.
Proof.
  unfold process_template.
  match goal with
  | |- context [bind (print ?l) ?k] =>
      assert (appends (k tt)) as Hk; [|
        unfold bind at 1; unfold print at 1;
        destruct (Hk (say l w)) as [lines H]; exists lines;
        rewrite H; unfold say; cbn [stdout];
        rewrite <- app_assoc; reflexivity]
  end.
  apply appends_bind; [apply appends_fs_read | intros content].
  apply appends_bind; [apply appends_parse_frontmatter | intros [fm body]].
  apply appends_bind; [apply appends_lift | intros output_info].
  destruct (negb (truthy output_info)); [apply appends_print|].
  apply appends_bind; [apply appends_lift | intros output_filename].
  destruct (negb (truthy output_filename)); [apply appends_print|].
  repeat (apply appends_bind;
          [first [apply appends_lift | apply appends_fs_update] | intros ?]).
  apply appends_print.
Qed.

Lemma bind_print {B} (line : str) (k : unit -> M B) (w : world) :
  bind (print line) k w = k tt (say line w).
Proof. reflexivity. Qed.

Lemma bind_lift {A B} (o : outcome A) (k : A -> M B) (w : world) :
  bind (lift o) k w
  = match o with Ok a => k a w | Raise e => (Raise e, w) end.
Proof. destruct o; reflexivity. Qed.

Lemma bind_step {A B} (c : M A) (k : A -> M B) (w w' : world) (a : A) :
  c w = (Ok a, w') -> bind c k w = k a w'.
Proof. intros H; unfold bind; rewrite H; reflexivity. Qed.

Lemma bind_fs_update {B} (op : FS -> FS * option exn) (k : unit -> M B)
  (w : world) (fs' : FS) :
  op (files w) = (fs', None) ->
  bind (fs_update op) k w = k tt (World fs' (stdout w)).
Proof. intros H; unfold bind, fs_update; rewrite H; reflexivity. Qed.

Lemma fs_read_say (p : Path) (line content : str) (w : world) :
  read_text (files w) p = Ok content ->
  fs_read p (say line w) = (Ok content, say line w).
Proof. intros H; unfold fs_read, say; cbn [files]; rewrite H; reflexivity. Qed.

(** A file that is processed without an exception does not stop the loop,
    and neither does one that raises: the loop prints the error and goes
    on. *)
Lemma process_each_cons (f : Path) (rest : list Path) (w : world) :
  process_each self (f :: rest) w
  = match process_template self f w with
    | (Ok _, w') => process_each self rest w'
    | (Raise e, w') =>
        process_each self rest
          (say (lit "Error processing " ++ path_str f ++ lit ": " ++ exn_str e)
             w')
    end.
Proof.
  cbn [process_each]. unfold bind, try_except, print.
  destruct (process_template self f w) as [[[]|e] w']; reflexivity.
Qed.

Lemma process_each_total (template_files : list Path) (w : world) :
  exists w',
    process_each self template_files w = (Ok tt, w')
    /\ (exists lines, stdout w' = stdout w ++ lines)
    /\ forall f, In f template_files ->
                 In (lit "Processing: " ++ path_str f) (stdout w').
Proof.
  revert w; induction template_files as [|f rest IH]; intros w.
  - exists w; repeat split; [exists []; rewrite app_nil_r; reflexivity|].
    intros f [].
  - rewrite process_each_cons.
    destruct (process_template_prints f w) as [lines Hlines].
    destruct (process_template self f w) as [[[]|e] w1]; cbn [snd] in Hlines.
    + destruct (IH w1) as (w' & Hrun & [more Hmore] & Hall).
      exists w'; repeat split; [exact Hrun | |].
      * eexists. rewrite Hmore, Hlines, <- app_assoc. reflexivity.
      * intros g [<-|Hin]; [|apply Hall; exact Hin].
        rewrite Hmore, Hlines. apply in_or_app; left.
        apply in_or_app; right; left; reflexivity.
    + destruct (IH (say (lit "Error processing " ++ path_str f ++ lit ": "
                         ++ exn_str e) w1))
        as (w' & Hrun & [more Hmore] & Hall).
      exists w'; repeat split; [exact Hrun | |].
      * eexists. rewrite Hmore. unfold say; cbn [stdout].
        rewrite Hlines, <- !app_assoc. reflexivity.
      * intros g [<-|Hin]; [|apply Hall; exact Hin].
        rewrite Hmore. unfold say; cbn [stdout]. rewrite Hlines.
        apply in_or_app; left. apply in_or_app; left.
        apply in_or_app; right; left; reflexivity.
Qed.

(** C7. An exception raised while one file is processed is caught by the
    loop, which prints an error line with the path of the file and the
    exception and goes on with the remaining files; a file processed
    without an exception is followed by the remaining files too; the loop
    itself never raises, and every file of the list is processed (its
    "Processing" line is printed).  When the listing is empty,
    [process_all] prints that no template was found and returns; when it is
    not, [process_all] prints the number of files and runs the loop on the
    whole listing, and it does not raise. *)
Theorem process_all_isolates_failures :
  (forall f rest w e w',
     process_template self f w = (Raise e, w') ->
     process_each self (f :: rest) w
     = process_each self rest
         (say (lit "Error processing " ++ path_str f ++ lit ": " ++ exn_str e)
            w'))
  /\ (forall f rest w w',
        process_template self f w = (Ok tt, w') ->
        process_each self (f :: rest) w = process_each self rest w')
  /\ (forall template_files w,
        exists w',
          process_each self template_files w = (Ok tt, w')
          /\ forall f, In f template_files ->
                       In (lit "Processing: " ++ path_str f) (stdout w'))
  /\ (forall w,
        glob_md (files w) (template_dir self) = Ok [] ->
        process_all self w
        = (Ok tt,
           say (lit "No template files found in "
                ++ path_str (template_dir self)) w))
  /\ (forall w f rest,
        glob_md (files w) (template_dir self) = Ok (f :: rest) ->
        process_all self w
        = process_each self (f :: rest)
            (say (lit "Found " ++ str_of_nat (length (f :: rest))
                  ++ lit " template file(s)") w))
  /\ (forall w template_files,
        glob_md (files w) (template_dir self) = Ok template_files ->
        exists w', process_all self w = (Ok tt, w')).
Proof.
  repeat split.
  - intros f rest w e w' H. rewrite process_each_cons, H. reflexivity.
  - intros f rest w w' H. rewrite process_each_cons, H. reflexivity.
  - intros template_files w.
    destruct (process_each_total template_files w) as (w' & H & _ & Hall).
    exists w'; split; assumption.
  - intros w H. unfold process_all, bind, fs_glob. rewrite H. reflexivity.
  - intros w f rest H. unfold process_all, bind, fs_glob, print. rewrite H.
    reflexivity.
  - intros w template_files H. unfold process_all, bind, fs_glob. rewrite H.
    destruct template_files as [|f rest]; [eexists; reflexivity|].
    unfold print.
    destruct (process_each_total (f :: rest)
                (say (lit "Found " ++ str_of_nat (length (f :: rest))
                      ++ lit " template file(s)") w))
      as (w' & Hrun & _).
    exists w'; exact Hrun.
Qed.

(** C8. When the block loads as a value that is true and is not a mapping,
    the parser returns that value itself as the header.  [process_template]
    then raises the [AttributeError] of looking up [get] on it, having
    printed nothing but the "Processing" line (no warning about a missing
    output), and the loop of [process_all] prints the error line of that
    file and goes on with the remaining files. *)
Theorem scalar_header_raises (f : Path) (rest : list Path)
  (content g1 g2 : str) (v : value) (w : world) :
  read_text (files w) f = Ok content ->
  match_frontmatter content = Some (g1, g2) ->
  safe_load g1 = Ok v ->
  truthy v = true ->
  (forall d, v <> VDict d) ->
  let w1 := say (lit "Processing: " ++ path_str f) w in
  parse_frontmatter content w1 = (Ok (v, g2), w1)
  /\ process_template self f w = (Raise (AttributeError v (lit "get")), w1)
  /\ process_each self (f :: rest) w
     = process_each self rest
         (say (lit "Error processing " ++ path_str f ++ lit ": "
               ++ exn_str (AttributeError v (lit "get"))) w1).
Proof.
  intros Hread Hmatch Hload Htrue Hnd w1.
  assert (parse_frontmatter content w1 = (Ok (v, g2), w1)) as Hparse.
  { unfold parse_frontmatter. rewrite Hmatch.
    unfold try_except, bind, lift, ret. rewrite Hload, Htrue. reflexivity. }
  assert (process_template self f w
          = (Raise (AttributeError v (lit "get")), w1)) as Hproc.
  { unfold process_template. rewrite bind_print. fold w1.
    erewrite bind_step by (apply fs_read_say; exact Hread). fold w1.
    erewrite bind_step by exact Hparse. cbv beta iota. rewrite bind_lift.
    destruct v; try reflexivity. exfalso; eapply Hnd; reflexivity. }
  repeat split; [exact Hparse | exact Hproc|].
  rewrite process_each_cons, Hproc. reflexivity.
Qed.

(** C6. When the parsed header is a mapping without an [output] entry, or
    with an [output] mapping without a [file_name] entry, processing the
    file prints a warning and returns without an exception; the files are
    as they were before, and the loop of [process_all] goes on with the
    remaining files. *)
Theorem missing_output_is_skipped (f : Path) (rest : list Path)
  (content body : str) (header : dict) (w w2 : world) :
  read_text (files w) f = Ok content ->
  parse_frontmatter content (say (lit "Processing: " ++ path_str f) w)
  = (Ok (VDict header, body), w2) ->
  (dict_get (lit "output") header = None
   \/ exists output_info,
        dict_get (lit "output") header = Some (VDict output_info)
        /\ dict_get (lit "file_name") output_info = None) ->
  exists warning,
    (warning = lit "Warning: No output info found in " ++ path_str f
     \/ warning = lit "Warning: No file_name in output info for "
                  ++ path_str f)
    /\ process_template self f w = (Ok tt, say warning w2)
    /\ files (say warning w2) = files w
    /\ process_each self (f :: rest) w
       = process_each self rest (say warning w2).
Proof.
  intros Hread Hparse Hcase.
  assert (files w2 = files w) as Hfiles.
  { pose proof (parse_frontmatter_files content
                  (say (lit "Processing: " ++ path_str f) w)) as H.
    rewrite Hparse in H. exact H. }
  assert (exists warning,
             (warning = lit "Warning: No output info found in " ++ path_str f
              \/ warning = lit "Warning: No file_name in output info for "
                           ++ path_str f)
             /\ process_template self f w = (Ok tt, say warning w2))
    as (warning & Hw & Hproc).
  { unfold process_template. rewrite bind_print.
    erewrite bind_step by (apply fs_read_say; exact Hread).
    erewrite bind_step by exact Hparse. cbv beta iota. rewrite bind_lift. cbn [py_get].
    destruct Hcase as [Hnone | (output_info & Hsome & Hname)].
    - rewrite Hnone. cbn [truthy negb].
      eexists; split; [left; reflexivity | reflexivity].
    - rewrite Hsome. destruct output_info as [|item output_info].
      + cbn [truthy negb].
        eexists; split; [left; reflexivity | reflexivity].
      + cbn [truthy negb]. rewrite bind_lift.
        cbn [py_get]. rewrite Hname. cbn [truthy negb].
        eexists; split; [right; reflexivity | reflexivity]. }
  exists warning. repeat split; [exact Hw | exact Hproc | exact Hfiles|].
  rewrite process_each_cons, Hproc. reflexivity.
Qed.

(** C5. When every step of processing a template succeeds, the text written
    at the output path is exactly: a line of three dashes, the header the
    parser returned dumped by [yaml.dump] with [sort_keys=False], a line of
    three dashes, the rendered body.  The mapping handed to the dumper is
    the parsed header itself: building the variables does not touch it, and
    the dumper is told not to sort.  So for every dumper that, not sorting,
    writes the entries of a mapping one after the other in the order of the
    mapping, the header of the written document is the entries of the
    parsed header in the order in which the header declares them. *)
Theorem written_document_framing (f : Path) (content body name : str)
  (header output_info metadata : dict) (processed_body : str)
  (w w2 : world) (fs1 fs2 : FS) (entry : str -> value -> str) :
  read_text (files w) f = Ok content ->
  parse_frontmatter content (say (lit "Processing: " ++ path_str f) w)
  = (Ok (VDict header, body), w2) ->
  dict_get (lit "output") header = Some (VDict output_info) ->
  dict_get (lit "file_name") output_info = Some (VStr name) ->
  name <> [] ->
  py_get (VDict header) (lit "metadata") (VDict []) = Ok (VDict metadata) ->
  replace_variables body (collect_variables metadata output_info)
  = Ok processed_body ->
  mkdir_parents (files w) (parent (joinpath (output_base_dir self) name))
  = (fs1, None) ->
  dumps_in_order entry ->
  write_text fs1 (joinpath (output_base_dir self) name)
    (lit "---" ++ [nl]
     ++ flat_map (fun kv => entry (fst kv) (snd kv)) header
     ++ lit "---" ++ [nl] ++ processed_body)
  = (fs2, None) ->
  process_template self f w
  = (Ok tt,
     say (lit "Created: " ++ path_str (joinpath (output_base_dir self) name))
       (World fs2 (stdout w2)))
  /\ fs2 = fst (write_text fs1 (joinpath (output_base_dir self) name)
                  (lit "---" ++ [nl] ++ yaml_dump true false (VDict header)
                   ++ lit "---" ++ [nl] ++ processed_body))
  /\ yaml_dump true false (VDict header)
     = flat_map (fun kv => entry (fst kv) (snd kv)) header.
Proof.
  intros Hread Hparse Hout Hname Hne Hmeta Hsub Hmkdir Hdump Hwrite.
  assert (yaml_dump true false (VDict header)
          = flat_map (fun kv => entry (fst kv) (snd kv)) header) as Hentries.
  { apply Hdump. intros ->. discriminate. }
  rewrite <- Hentries in Hwrite.
  split; [|split; [rewrite Hwrite; reflexivity | exact Hentries]].
  assert (files w2 = files w) as Hfiles.
  { pose proof (parse_frontmatter_files content
                  (say (lit "Processing: " ++ path_str f) w)) as H.
    rewrite Hparse in H. exact H. }
  unfold process_template. rewrite bind_print.
  erewrite bind_step by (apply fs_read_say; exact Hread).
  erewrite bind_step by exact Hparse. cbv beta iota. rewrite bind_lift.
  cbn [py_get] in Hmeta |- *. injection Hmeta as Hmeta. rewrite Hout.
  destruct output_info as [|item output_info]; [discriminate|].
  cbn [truthy negb]. rewrite bind_lift. cbn [py_get]. rewrite Hname.
  destruct name as [|c name]; [contradiction|]. cbn [truthy negb].
  rewrite bind_lift. cbn [py_get]. rewrite Hmeta. rewrite bind_lift. cbn [py_items].
  rewrite bind_lift. rewrite bind_lift, Hsub. rewrite bind_lift. cbn [truediv].
  erewrite bind_fs_update by (rewrite Hfiles; exact Hmkdir).
  erewrite bind_fs_update by (cbn [files]; exact Hwrite).
  reflexivity.
Qed.

End Pipeline.

(* ================================================================== *)
(** * The theorems on the example platform *)

Lemma parse_frontmatter_fallback_witness :
  (match_frontmatter Example.plain_md = None
   /\ parse_frontmatter (platform := Example.toy) Example.plain_md Example.start
      = (Ok (VDict [], Example.plain_md), Example.start))
  /\ (match_frontmatter Example.broken_md = Some (lit "a: [", lit "text")
      /\ parse_frontmatter (platform := Example.toy) Example.broken_md
           Example.start
         = (Ok (VDict [], Example.broken_md),
            say (lit "Warning: YAML parse error: while parsing a flow node")
              Example.start)).
Proof.
  split; split.
  - vm_compute; reflexivity.
  - apply (proj1 (parse_frontmatter_fallback (platform := Example.toy)
                    Example.plain_md Example.start)).
    vm_compute; reflexivity.
  - vm_compute; reflexivity.
  - apply (proj2 (parse_frontmatter_fallback (platform := Example.toy)
                    Example.broken_md Example.start)
             (lit "a: [") (lit "text") (lit "while parsing a flow node")).
    + vm_compute; reflexivity.
    + vm_compute; reflexivity.
Defined.

Lemma parse_frontmatter_null_witness :
  match_frontmatter Example.comment_md
  = Some (lit "# nothing here", lit "text")
  /\ parse_frontmatter (platform := Example.toy) Example.comment_md
       Example.start
     = (Ok (VDict [], lit "text"), Example.start)
  /\ VDict [] <> VNone.
Proof.
  destruct (parse_frontmatter_null (platform := Example.toy)
              Example.comment_md Example.start) as [Hnull Hnever].
  assert (match_frontmatter Example.comment_md
          = Some (lit "# nothing here", lit "text")) as Hm
    by (vm_compute; reflexivity).
  assert (parse_frontmatter (platform := Example.toy) Example.comment_md
            Example.start
          = (Ok (VDict [], lit "text"), Example.start)) as Hp.
  { apply (Hnull (lit "# nothing here") (lit "text") Hm).
    vm_compute; reflexivity. }
  split; [exact Hm|]. split; [exact Hp|].
  exact (Hnever _ _ _ Hp).
Defined.

Lemma unterminated_closing_line_witness :
  (exists w1 w2,
      forallb is_space w1 = true /\ forallb is_space w2 = true
      /\ doc1 = lit "---" ++ w1 ++ [nl] ++ lit "a: 1"
                ++ [nl] ++ lit "---" ++ w2 ++ [nl] ++ lit "body")
  /\ (find (nl :: lit "---") Example.unclosed_md = Some 8
      /\ 8 + 4 = length Example.unclosed_md
      /\ match_frontmatter Example.unclosed_md = None
      /\ parse_frontmatter (platform := Example.toy) Example.unclosed_md
           Example.start
         = (Ok (VDict [], Example.unclosed_md), Example.start)).
Proof.
  split.
  - apply (proj1 (unterminated_closing_line (platform := Example.toy)
                    doc1 Example.start) (lit "a: 1") (lit "body")).
    vm_compute; reflexivity.
  - assert (find (nl :: lit "---") Example.unclosed_md = Some 8) as Hf
      by (vm_compute; reflexivity).
    assert (8 + 4 = length Example.unclosed_md) as Hl
      by (vm_compute; reflexivity).
    split; [exact Hf|]. split; [exact Hl|].
    exact (proj2 (unterminated_closing_line (platform := Example.toy)
                    Example.unclosed_md Example.start) 8 Hf Hl).
Defined.

Lemma collect_variables_precedence_witness :
  dict_get (lit "a")
    (collect_variables
       [(lit "a", VStr (lit "1")); (lit "b", VStr (lit "3"))]
       [(lit "a", VStr (lit "2")); (lit "file_name", VStr (lit "out.md"))])
  = Some (VStr (lit "2"))
  /\ dict_get (lit "b")
       (collect_variables
          [(lit "a", VStr (lit "1")); (lit "b", VStr (lit "3"))]
          [(lit "a", VStr (lit "2")); (lit "file_name", VStr (lit "out.md"))])
     = Some (VStr (lit "3"))
  /\ dict_get (lit "file_name")
       (collect_variables
          [(lit "a", VStr (lit "1")); (lit "b", VStr (lit "3"))]
          [(lit "a", VStr (lit "2")); (lit "file_name", VStr (lit "out.md"))])
     = None.
Proof.
  assert (NoDup (keys [(lit "a", VStr (lit "1")); (lit "b", VStr (lit "3"))]))
    as Hm.
  { repeat constructor; vm_compute; intuition discriminate. }
  assert (NoDup (keys [(lit "a", VStr (lit "2"));
                       (lit "file_name", VStr (lit "out.md"))])) as Ho.
  { repeat constructor; vm_compute; intuition discriminate. }
  destruct (@collect_variables_precedence _ _ Hm Ho) as (Hout & Hmeta & Hname).
  split; [|split].
  - apply Hout; [vm_compute; discriminate | reflexivity].
  - rewrite Hmeta; [reflexivity | vm_compute; discriminate | reflexivity].
  - rewrite Hname. reflexivity.
Defined.

(** C1 as it is stated fails: with metadata [{file_name: draft.md}] and
    output [{file_name: out.md}] the variables are [{file_name: draft.md}]:
    the key [file_name] is a variable, and a key that is in both mappings is
    not bound to the value of output. *)
Lemma file_name_from_metadata :
  collect_variables [(lit "file_name", VStr (lit "draft.md"))]
    [(lit "file_name", VStr (lit "out.md"))]
  = [(lit "file_name", VStr (lit "draft.md"))]
  /\ ~ (forall metadata output_info : dict,
          NoDup (keys metadata) -> NoDup (keys output_info) ->
          (forall k m v,
             dict_get k metadata = Some m ->
             dict_get k output_info = Some v ->
             dict_get k (collect_variables metadata output_info) = Some v)
          /\ dict_get (lit "file_name")
               (collect_variables metadata output_info) = None).
Proof.
  split; [reflexivity|].
  intros H.
  destruct (H [(lit "file_name", VStr (lit "draft.md"))]
              [(lit "file_name", VStr (lit "out.md"))]) as [_ Hnone].
  - repeat constructor; simpl; tauto.
  - repeat constructor; simpl; tauto.
  - vm_compute in Hnone. discriminate.
Qed.

Lemma replace_variables_plain_witness :
  forallb plain_segment
    [Text (lit "Hello, "); Hole (lit "name"); Text (lit "! ");
     Hole (lit "unknown")] = true
  /\ forallb (plain_variable (platform := Example.toy))
       [(lit "name", VStr (lit "Alice")); (lit "n", VInt 3)] = true
  /\ replace_variables (platform := Example.toy)
       (lit "Hello, {{name}}! {{unknown}}")
       [(lit "name", VStr (lit "Alice")); (lit "n", VInt 3)]
     = Ok (lit "Hello, Alice! {{unknown}}").
Proof.
  split; [reflexivity|]. split; [reflexivity|].
  exact (replace_variables_plain (platform := Example.toy)
           [Text (lit "Hello, "); Hole (lit "name"); Text (lit "! ");
            Hole (lit "unknown")]
           [(lit "name", VStr (lit "Alice")); (lit "n", VInt 3)]
           eq_refl eq_refl).
Defined.

(** C2 as it is stated fails.  The body [{{x{{a}}] is the placeholder of
    the name [x{{a], which is not a key of the mapping [{a: 1}]; the pass
    of [a] rewrites its tail and the result [{{x1] no longer has it.  And
    in the body [{{{{a}}}}] the only placeholder of a key of the mapping
    [{a: b, b: X}] is [{{a}}], for which the claim asks [{{b}}]; the pass
    of [a] gives that text and the pass of [b] then turns it into [X]. *)
Lemma placeholder_of_absent_key_changed :
  (replace_variables (platform := Example.toy) (lit "{{x{{a}}")
     [(lit "a", VStr (lit "1"))]
   = Ok (lit "{{x1")
   /\ dict_get (lit "x{{a") [(lit "a", VStr (lit "1"))] = None
   /\ contains (placeholder (lit "x{{a")) (lit "{{x{{a}}") = true
   /\ contains (placeholder (lit "x{{a")) (lit "{{x1") = false)
  /\ ~ (forall (body : str) (variables : dict) (u out : str),
          dict_get u variables = None ->
          contains (placeholder u) body = true ->
          replace_variables (platform := Example.toy) body variables = Ok out ->
          contains (placeholder u) out = true)
  /\ replace_variables (platform := Example.toy) (lit "{{{{a}}}}")
       [(lit "a", VStr (lit "b")); (lit "b", VStr (lit "X"))]
     = Ok (lit "X")
  /\ ~ (forall (segs : list segment) (variables : dict),
          replace_variables (platform := Example.toy) (render segs) variables
          = Ok (render (map (fill (platform := Example.toy) variables) segs))).
Proof.
  split; [repeat split; vm_compute; reflexivity|].
  split.
  { intros H.
    specialize (H (lit "{{x{{a}}") [(lit "a", VStr (lit "1"))]
                  (lit "x{{a") (lit "{{x1") eq_refl eq_refl eq_refl).
    vm_compute in H. discriminate. }
  split; [vm_compute; reflexivity|].
  intros H.
  specialize (H [Text (lit "{{"); Hole (lit "a"); Text (lit "}}")]
                [(lit "a", VStr (lit "b")); (lit "b", VStr (lit "X"))]).
  vm_compute in H. discriminate.
Qed.

(** A value with a backslash is not inserted as it is: [re.sub] reads the
    replacement as a template.  A backslash and [n] become a newline, and a
    backslash before a letter that is no escape makes [re.sub] raise. *)
Example backslash_value_is_a_template :
  replace_variables (platform := Example.toy) (lit "{{p}}")
    [(lit "p", VStr (lit "a\nb"))]
  = Ok (lit "a" ++ [nl] ++ lit "b")
  /\ replace_variables (platform := Example.toy) (lit "{{p}}")
       [(lit "p", VStr (lit "C:\Users"))]
     = Raise (ReError (lit "C:\Users"))
  /\ replace_variables (platform := Example.toy) (lit "no placeholder")
       [(lit "p", VStr (lit "C:\Users"))]
     = Raise (ReError (lit "C:\Users")).
Proof. repeat split; vm_compute; reflexivity. Qed.

Lemma replace_variables_passes_witness :
  replace_variables (platform := Example.toy) (lit "{{a}} {{b}}")
    ([(lit "a", VStr (lit "1"))] ++ [(lit "b", VStr (lit "2"))])
  = Ok (lit "1 2")
  /\ re_sub (placeholder_pattern (lit "b")) (lit "2") (lit "no holes")
     = Ok (lit "no holes")
  /\ (exists r,
         re_sub (placeholder_pattern (lit "b")) (lit "2")
           (skipn (6 + length (placeholder (lit "b"))) (lit "{{a}} {{b}}"))
         = Ok r
         /\ re_sub (placeholder_pattern (lit "b")) (lit "2") (lit "{{a}} {{b}}")
            = Ok (firstn 6 (lit "{{a}} {{b}}") ++ lit "2" ++ r))
  /\ replace_variables (platform := Example.toy) (lit "{{b}}")
       [(lit "b", VStr (lit "{{a}}")); (lit "a", VStr (lit "2"))]
     = Ok (lit "2")
  /\ replace_variables (platform := Example.toy) (lit "{{b}}")
       [(lit "a", VStr (lit "2")); (lit "b", VStr (lit "{{a}}"))]
     = Ok (lit "{{a}}").
Proof.
  destruct (replace_variables_passes (platform := Example.toy)
              (lit "{{a}} {{b}}") [(lit "a", VStr (lit "1"))]
              (lit "b") (VStr (lit "2"))) as (Horder & Hpass & _).
  destruct (Hpass eq_refl) as [_ Hfirst].
  destruct (replace_variables_passes (platform := Example.toy)
              (lit "no holes") [] (lit "b") (VStr (lit "2")))
    as (_ & Hpass' & _).
  destruct (Hpass' eq_refl) as [Habsent _].
  destruct (replace_variables_passes (platform := Example.toy)
              [] [] (lit "b") (VStr (lit "2"))) as (_ & _ & Hlater).
  destruct (Hlater (lit "a") eq_refl eq_refl) as [Hafter Hbefore].
  split; [rewrite Horder; vm_compute; reflexivity|].
  split; [apply Habsent; vm_compute; reflexivity|].
  split; [apply Hfirst; vm_compute; reflexivity|].
  split; [exact Hafter|].
  apply Hbefore; [reflexivity | reflexivity | vm_compute; discriminate].
Defined.

(** C3 as it is stated fails: with the mapping
    [{greeting: Hello {{name}}, name: Alice}] the body [{{greeting}}]
    becomes [Hello Alice]: the placeholder inside the inserted value is
    substituted by the pass of the later key. *)
Lemma inserted_placeholder_is_substituted :
  replace_variables (platform := Example.toy) (lit "{{greeting}}")
    [(lit "greeting", VStr (lit "Hello {{name}}"));
     (lit "name", VStr (lit "Alice"))]
  = Ok (lit "Hello Alice")
  /\ ~ (forall (body : str) (variables : dict) (out : str)
               (k other : str) (v : value),
          replace_variables (platform := Example.toy) body variables = Ok out ->
          dict_get k variables = Some v ->
          contains (placeholder k) body = true ->
          contains (placeholder other) (py_str (platform := Example.toy) v)
          = true ->
          contains (placeholder other) out = true).
Proof.
  split; [vm_compute; reflexivity|].
  intros H.
  specialize (H (lit "{{greeting}}")
                [(lit "greeting", VStr (lit "Hello {{name}}"));
                 (lit "name", VStr (lit "Alice"))]
                (lit "Hello Alice") (lit "greeting") (lit "name")
                (VStr (lit "Hello {{name}}"))
                eq_refl eq_refl eq_refl eq_refl).
  vm_compute in H. discriminate.
Qed.

Lemma scalar_header_raises_witness :
  parse_frontmatter (platform := Example.toy) Example.scalar_md
    (say (lit "Processing: tpl/scalar.md") Example.start)
  = (Ok (VStr (lit "just text"), lit "text"),
     say (lit "Processing: tpl/scalar.md") Example.start)
  /\ process_template (platform := Example.toy) Example.processor
       (lit "tpl/scalar.md") Example.start
     = (Raise (AttributeError (VStr (lit "just text")) (lit "get")),
        say (lit "Processing: tpl/scalar.md") Example.start)
  /\ process_each (platform := Example.toy) Example.processor
       [lit "tpl/scalar.md"; lit "tpl/plain.md"] Example.start
     = process_each (platform := Example.toy) Example.processor
         [lit "tpl/plain.md"]
         (say (lit "Error processing tpl/scalar.md: 'str' object has no attribute 'get'")
            (say (lit "Processing: tpl/scalar.md") Example.start)).
Proof.
  apply (@scalar_header_raises Example.toy Example.processor
           (lit "tpl/scalar.md") [lit "tpl/plain.md"]
           Example.scalar_md (lit "just text") (lit "text")
           (VStr (lit "just text")) Example.start).
  - vm_compute; reflexivity.
  - vm_compute; reflexivity.
  - vm_compute; reflexivity.
  - reflexivity.
  - intros d; discriminate.
Defined.

Lemma missing_output_is_skipped_witness :
  (process_template (platform := Example.toy) Example.processor
     (lit "tpl/no_output.md") Example.start
   = (Ok tt,
      say (lit "Warning: No output info found in tpl/no_output.md")
        (say (lit "Processing: tpl/no_output.md") Example.start))
   /\ process_each (platform := Example.toy) Example.processor
        [lit "tpl/no_output.md"; lit "tpl/good.md"] Example.start
      = process_each (platform := Example.toy) Example.processor
          [lit "tpl/good.md"]
          (say (lit "Warning: No output info found in tpl/no_output.md")
             (say (lit "Processing: tpl/no_output.md") Example.start)))
  /\ process_template (platform := Example.toy) Example.processor
       (lit "tpl/no_name.md") Example.start
     = (Ok tt,
        say (lit "Warning: No file_name in output info for tpl/no_name.md")
          (say (lit "Processing: tpl/no_name.md") Example.start)).
Proof.
  split.
  - destruct (@missing_output_is_skipped Example.toy
                Example.processor (lit "tpl/no_output.md")
                [lit "tpl/good.md"]
                Example.no_output_md (lit "Hello {{name}}")
                [(lit "metadata", VDict [(lit "name", VStr (lit "Alice"))])]
                Example.start
                (say (lit "Processing: tpl/no_output.md") Example.start))
      as (warning & Hw & Hrun & _ & Hnext).
    + vm_compute; reflexivity.
    + vm_compute; reflexivity.
    + left; vm_compute; reflexivity.
    + destruct Hw as [-> | ->].
      * split; [exact Hrun | exact Hnext].
      * vm_compute in Hrun. discriminate.
  - destruct (@missing_output_is_skipped Example.toy
                Example.processor (lit "tpl/no_name.md") []
                Example.no_name_md (lit "Hello {{a}}")
                [(lit "output", VDict [(lit "a", VInt 2)])]
                Example.start
                (say (lit "Processing: tpl/no_name.md") Example.start))
      as (warning & Hw & Hrun & _ & _).
    + vm_compute; reflexivity.
    + vm_compute; reflexivity.
    + right; exists [(lit "a", VInt 2)]; split; vm_compute; reflexivity.
    + destruct Hw as [-> | ->].
      * vm_compute in Hrun. discriminate.
      * exact Hrun.
Defined.

Lemma process_all_isolates_failures_witness :
  process_each (platform := Example.toy) Example.processor
    [lit "tpl/scalar.md"; lit "tpl/good.md"] Example.start
  = process_each (platform := Example.toy) Example.processor
      [lit "tpl/good.md"]
      (say (lit "Error processing tpl/scalar.md: 'str' object has no attribute 'get'")
         (say (lit "Processing: tpl/scalar.md") Example.start))
  /\ process_each (platform := Example.toy) Example.processor
       [lit "tpl/plain.md"; lit "tpl/good.md"] Example.start
     = process_each (platform := Example.toy) Example.processor
         [lit "tpl/good.md"]
         (say (lit "Warning: No output info found in tpl/plain.md")
            (say (lit "Processing: tpl/plain.md") Example.start))
  /\ process_all (platform := Example.toy) Example.processor
       (World (platform := Example.toy) [] [])
     = (Ok tt,
        say (lit "No template files found in tpl")
          (World (platform := Example.toy) [] []))
  /\ process_all (platform := Example.toy) Example.processor Example.start
     = process_each (platform := Example.toy) Example.processor
         [lit "tpl/good.md"; lit "tpl/plain.md"; lit "tpl/broken.md";
          lit "tpl/scalar.md"; lit "tpl/no_output.md"; lit "tpl/no_name.md"]
         (say (lit "Found 6 template file(s)") Example.start)
  /\ exists w', process_all (platform := Example.toy) Example.processor
                  Example.start = (Ok tt, w').
Proof.
  destruct (process_all_isolates_failures (platform := Example.toy)
              Example.processor)
    as (Hcatch & Hnext & _ & Hempty & Hloop & Hnever).
  split; [|split; [|split; [|split]]].
  - apply (Hcatch (lit "tpl/scalar.md") [lit "tpl/good.md"] Example.start
             (AttributeError (VStr (lit "just text")) (lit "get"))).
    vm_compute; reflexivity.
  - apply (Hnext (lit "tpl/plain.md") [lit "tpl/good.md"] Example.start).
    vm_compute; reflexivity.
  - apply Hempty. vm_compute; reflexivity.
  - apply (Hloop Example.start (lit "tpl/good.md")
             [lit "tpl/plain.md"; lit "tpl/broken.md"; lit "tpl/scalar.md";
              lit "tpl/no_output.md"; lit "tpl/no_name.md"]).
    vm_compute; reflexivity.
  - apply (Hnever Example.start
             [lit "tpl/good.md"; lit "tpl/plain.md"; lit "tpl/broken.md";
              lit "tpl/scalar.md"; lit "tpl/no_output.md";
              lit "tpl/no_name.md"]).
    vm_compute; reflexivity.
Defined.

(** The dumper of the example platform writes the entries in order. *)
Lemma example_dump_in_order :
  dumps_in_order (platform := Example.toy) Example.entry.
Proof.
  intros d _. cbn [yaml_dump Example.toy].
  induction d as [|[k x] d IH]; [reflexivity|].
  cbn [flat_map fst snd]. rewrite <- IH. unfold Example.entry.
  cbn [Example.dump app]. repeat rewrite <- app_assoc. reflexivity.
Qed.

Lemma written_document_framing_witness :
  process_template (platform := Example.toy) Example.processor
    (lit "tpl/good.md") Example.start
  = (Ok tt,
     say (lit "Created: out/out.md")
       (World (platform := Example.toy)
          (Example.store_file (lit "out/out.md")
             (lit "---" ++ [nl] ++ Example.header1 ++ [nl]
              ++ lit "---" ++ [nl] ++ lit "Hello 2 and {{b}}")
             Example.disk)
          [lit "Processing: tpl/good.md"]))
  /\ yaml_dump (Platform := Example.toy) true false Example.header1_value
     = Example.entry (lit "output")
         (VDict [(lit "file_name", VStr (lit "out.md")); (lit "a", VInt 2)])
       ++ Example.entry (lit "metadata") (VDict [(lit "a", VInt 1)]).
Proof.
  destruct (@written_document_framing Example.toy Example.processor
           (lit "tpl/good.md")
           Example.good_md (lit "Hello {{a}} and {{b}}") (lit "out.md")
           [(lit "output",
             VDict [(lit "file_name", VStr (lit "out.md")); (lit "a", VInt 2)]);
            (lit "metadata", VDict [(lit "a", VInt 1)])]
           [(lit "file_name", VStr (lit "out.md")); (lit "a", VInt 2)]
           [(lit "a", VInt 1)]
           (lit "Hello 2 and {{b}}")
           Example.start
           (say (lit "Processing: tpl/good.md") Example.start)
           Example.disk
           (Example.store_file (lit "out/out.md")
              (lit "---" ++ [nl] ++ Example.header1 ++ [nl]
               ++ lit "---" ++ [nl] ++ lit "Hello 2 and {{b}}")
              Example.disk)
           Example.entry
           ltac:(vm_compute; reflexivity) ltac:(vm_compute; reflexivity)
           ltac:(vm_compute; reflexivity) ltac:(vm_compute; reflexivity)
           ltac:(discriminate) ltac:(vm_compute; reflexivity)
           ltac:(vm_compute; reflexivity) ltac:(vm_compute; reflexivity)
           example_dump_in_order ltac:(vm_compute; reflexivity))
    as (Hrun & _ & Horder).
  split; [exact Hrun|].
  unfold Example.header1_value. rewrite Horder.
  cbn [flat_map fst snd]. rewrite app_nil_r. reflexivity.
Defined.

(* ================================================================== *)
(** * Well-formed documents are parsed back *)

Lemma run_lits_mismatch (p : str) (rest : list node) (pos : nat) (s : str)
  (caps : list nat) :
  startswith p s = false -> run (map Lit p ++ rest) pos s caps = None.
Proof.
  revert pos s; induction p as [|c p IH]; intros pos s; [discriminate|].
  cbn [map app run startswith]. destruct s as [|x s]; [reflexivity|].
  rewrite (N.eqb_sym c x). destruct (N.eqb x c); [|reflexivity].
  cbn [andb]. apply IH.
Qed.

Lemma run_lits_match (p : str) (rest : list node) (pos : nat) (s : str)
  (caps : list nat) :
  run (map Lit p ++ rest) pos (p ++ s) caps = run rest (pos + length p) s caps.
Proof.
  revert pos; induction p as [|c p IH]; intros pos.
  - cbn [map app length]. rewrite Nat.add_0_r. reflexivity.
  - cbn [map app run length]. rewrite N.eqb_refl, IH.
    replace (S pos + length p) with (pos + S (length p)) by lia. reflexivity.
Qed.

Lemma find_first (p s : str) (n : nat) :
  find p s = Some n -> forall j, j < n -> startswith p (skipn j s) = false.
Proof.
  revert n; induction s as [|x s IH]; intros n; rewrite find_eq.
  - destruct (startswith p []); [|discriminate].
    intros H; injection H as <-; intros j Hj; lia.
  - destruct (startswith p (x :: s)) eqn:E.
    + intros H; injection H as <-; intros j Hj; lia.
    + destruct (find p s) as [m|]; [|discriminate].
      cbn [option_map]. intros H; injection H as <-. intros [|j] Hj.
      * exact E.
      * cbn [skipn]. apply (IH m eq_refl). lia.
Qed.

Lemma startswith_app_long (p x rest : str) :
  length p <= length x -> startswith p (x ++ rest) = startswith p x.
Proof.
  revert x; induction p as [|c p IH]; intros x Hlen; [reflexivity|].
  destruct x as [|y x]; [cbn [length] in Hlen; lia|].
  cbn [app startswith]. rewrite IH by (cbn [length] in Hlen; lia).
  reflexivity.
Qed.

Lemma starts_text_app (h rest : str) :
  starts_text h = true -> leading_newline (h ++ rest) = false.
Proof.
  induction h as [|c h IH]; [discriminate|].
  cbn [starts_text app leading_newline].
  destruct (N.eqb c nl); [discriminate|].
  destruct (is_space c); [exact IH | reflexivity].
Qed.

(** White space, a newline and the rest: when the text behind the newline
    has no newline in its leading white space, the greedy [\s*] gives back
    exactly that newline. *)
Lemma star_space_none (rest : list node) (caps : list nat) (s : str)
  (pos : nat) :
  leading_newline s = false ->
  star true is_space (fun p s' => run (Lit nl :: rest) p s' caps) pos s = None.
Proof.
  revert pos; induction s as [|c s IH]; intros pos; [reflexivity|].
  cbn [leading_newline star].
  destruct (N.eqb c nl) eqn:Ec; [discriminate|].
  destruct (is_space c).
  - intros H. rewrite (IH (S pos) H). cbn [run]. rewrite Ec. reflexivity.
  - intros _. cbn [run]. rewrite Ec. reflexivity.
Qed.

Lemma star_space_last (rest : list node) (caps : list nat) (u s : str)
  (pos : nat) (r : list nat) :
  forallb is_space u = true ->
  leading_newline s = false ->
  run rest (pos + length u + 1) s caps = Some r ->
  star true is_space (fun p s' => run (Lit nl :: rest) p s' caps) pos
    (u ++ nl :: s)
  = Some r.
Proof.
  revert pos; induction u as [|x u IH]; intros pos Hu Hs Hr.
  - cbn [app star]. change (is_space nl) with true. cbv iota.
    rewrite star_space_none by exact Hs.
    cbn [run]. rewrite N.eqb_refl.
    cbn [length] in Hr. rewrite Nat.add_0_r, Nat.add_1_r in Hr. exact Hr.
  - cbn [forallb] in Hu. apply andb_true_iff in Hu as [Hx Hu].
    cbn [app star]. rewrite Hx.
    rewrite (IH (S pos) Hu Hs); [reflexivity|].
    cbn [length] in Hr.
    replace (S pos + length u + 1) with (pos + S (length u) + 1) by lia.
    exact Hr.
Qed.

(** A lazy star of any character stops at the first place where the rest
    of the pattern matches. *)
Lemma star_lazy_first (k : nat -> str -> option (list nat)) (u s : str)
  (pos : nat) (r : list nat) :
  (forall j, j < length u -> k (pos + j) (skipn j u ++ s) = None) ->
  k (pos + length u) s = Some r ->
  star false any_char k pos (u ++ s) = Some r.
Proof.
  revert pos; induction u as [|x u IH]; intros pos Hnone Hk.
  - cbn [app length] in *. rewrite Nat.add_0_r in Hk.
    destruct s as [|y s]; cbn [star any_char]; rewrite Hk; reflexivity.
  - cbn [app star any_char].
    pose proof (Hnone 0 (Nat.lt_0_succ _)) as H0.
    rewrite Nat.add_0_r in H0. cbn [skipn app] in H0. rewrite H0.
    apply IH.
    + intros j Hj. specialize (Hnone (S j)). cbn [length skipn] in Hnone.
      replace (S pos + j) with (pos + S j) by lia. apply Hnone. lia.
    + cbn [length] in Hk.
      replace (S pos + length u) with (pos + S (length u)) by lia. exact Hk.
Qed.

Lemma run_star (g : bool) (cls : char -> bool) (rest : list node)
  (pos : nat) (s : str) (caps : list nat) :
  run (Star g cls :: rest) pos s caps
  = star g cls (fun p s' => run rest p s' caps) pos s.
Proof. reflexivity. Qed.

Lemma run_save (rest : list node) (pos : nat) (s : str) (caps : list nat) :
  run (Save :: rest) pos s caps = run rest pos s (pos :: caps).
Proof. reflexivity. Qed.

(** The closing line and the body. *)
Lemma run_closing (w2 b : str) (pos : nat) (caps : list nat) :
  forallb is_space w2 = true ->
  leading_newline b = false ->
  run (map Lit (nl :: lit "---")
       ++ Star true is_space :: Lit nl
          :: [Save; Star true any_char; Save; Eol])
    pos ((nl :: lit "---") ++ w2 ++ nl :: b) caps
  = Some ((pos + 4 + length w2 + 1 + length b)
          :: (pos + 4 + length w2 + 1) :: caps).
Proof.
  intros Hw Hb. rewrite run_lits_match, run_star.
  change (length (nl :: lit "---")) with 4.
  apply star_space_last; [exact Hw | exact Hb |].
  apply run_body_group.
Qed.

Lemma run_block (h w2 b : str) (pos : nat) (caps : list nat) :
  forallb is_space w2 = true ->
  leading_newline b = false ->
  find (nl :: lit "---") (h ++ nl :: lit "---") = Some (length h) ->
  run (Save :: Star false any_char :: Save
       :: map Lit (nl :: lit "---")
          ++ Star true is_space :: Lit nl
             :: [Save; Star true any_char; Save; Eol])
    pos (h ++ (nl :: lit "---") ++ w2 ++ nl :: b) caps
  = Some ((pos + length h + 4 + length w2 + 1 + length b)
          :: (pos + length h + 4 + length w2 + 1)
          :: (pos + length h) :: pos :: caps).
Proof.
  intros Hw Hb Hfind. rewrite run_save, run_star.
  apply star_lazy_first.
  - intros j Hj. cbv beta. rewrite run_save.
    apply run_lits_mismatch.
    pose proof (find_first _ _ Hfind Hj) as H.
    rewrite skipn_app in H.
    replace (j - length h) with 0 in H by lia. cbn [skipn] in H.
    rewrite app_assoc, startswith_app_long; [exact H|].
    rewrite length_app. lia.
  - cbv beta. rewrite run_save. apply run_closing; assumption.
Qed.

Lemma run_frontmatter (w1 h w2 b : str) :
  forallb is_space w1 = true ->
  forallb is_space w2 = true ->
  starts_text h = true ->
  leading_newline b = false ->
  find (nl :: lit "---") (h ++ nl :: lit "---") = Some (length h) ->
  run frontmatter_pattern 0
    (lit "---" ++ w1 ++ [nl] ++ h ++ [nl] ++ lit "---" ++ w2 ++ [nl] ++ b) []
  = Some [3 + length w1 + 1 + length h + 4 + length w2 + 1 + length b;
          3 + length w1 + 1 + length h + 4 + length w2 + 1;
          3 + length w1 + 1 + length h;
          3 + length w1 + 1].
Proof.
  intros Hw1 Hw2 Hh Hb Hfind.
  change frontmatter_pattern with
    (Bol :: map Lit (lit "---")
            ++ Star true is_space :: Lit nl
               :: Save :: Star false any_char :: Save
               :: map Lit (nl :: lit "---")
                  ++ Star true is_space :: Lit nl
                     :: [Save; Star true any_char; Save; Eol]).
  change (run (Bol :: ?x) 0 ?s ?c) with (run x 0 s c).
  rewrite run_lits_match, run_star.
  change (0 + length (lit "---")) with 3.
  change ([nl] ++ h ++ [nl] ++ lit "---" ++ w2 ++ [nl] ++ b)
    with (nl :: h ++ (nl :: lit "---") ++ w2 ++ nl :: b).
  apply star_space_last; [exact Hw1 | apply starts_text_app; exact Hh |].
  apply run_block; assumption.
Qed.

(** X1. A document of the shape: three dashes, white space, a newline, a
    block, a newline, three dashes, white space, a newline, a body, is split
    into exactly that block and that body, provided the block has text on its
    first line and no line of three dashes before its end, and the body has
    no newline in its leading white space.  White space behind either line
    of dashes, blank lines included, belongs to neither part. *)
Theorem match_frontmatter_complete (w1 h w2 b : str) :
  forallb is_space w1 = true ->
  forallb is_space w2 = true ->
  starts_text h = true ->
  leading_newline b = false ->
  find (nl :: lit "---") (h ++ nl :: lit "---") = Some (length h) ->
  match_frontmatter
    (lit "---" ++ w1 ++ [nl] ++ h ++ [nl] ++ lit "---" ++ w2 ++ [nl] ++ b)
  = Some (h, b).
Proof.
  intros Hw1 Hw2 Hh Hb Hfind. unfold match_frontmatter, re_match.
  rewrite run_frontmatter by assumption.
  set (A := lit "---" ++ w1 ++ [nl]).
  set (B := [nl] ++ lit "---" ++ w2 ++ [nl]).
  assert (lit "---" ++ w1 ++ [nl] ++ h ++ [nl] ++ lit "---" ++ w2 ++ [nl] ++ b
          = A ++ h ++ (B ++ b)) as ->.
  { unfold A, B. repeat rewrite <- app_assoc. reflexivity. }
  assert (3 + length w1 + 1 = length A) as ->.
  { unfold A. rewrite !length_app. reflexivity. }
  assert (length A + length h + 4 + length w2 + 1 = length (A ++ h ++ B)) as ->.
  { unfold B. rewrite !length_app. cbn [length lit]. simpl. lia. }
  remember (A ++ h ++ B ++ b) as content eqn:Hcontent.
  cbn [option_map rev app]. subst content.
  rewrite slice_middle.
  assert (A ++ h ++ B ++ b = (A ++ h ++ B) ++ b ++ []) as ->.
  { rewrite app_nil_r. repeat rewrite <- app_assoc. reflexivity. }
  rewrite slice_middle. reflexivity.
Qed.

(* ================================================================== *)
(** * What one template does, case by case *)

Section TemplateCases.

Context {platform : Platform}.
Variable self : AgentTemplateProcessor.

(** X2. The body the parser returns is always the end of the document it
    was given: the parser never rewrites body text. *)
Theorem parse_frontmatter_body_suffix (content : str) (w w' : world)
  (header : value) (body : str) :
  parse_frontmatter content w = (Ok (header, body), w') ->
  exists front, content = front ++ body.
Proof.
  unfold parse_frontmatter.
  destruct (match_frontmatter content) as [[g1 g2]|] eqn:E.
  - apply match_frontmatter_shape in E as (w1 & w2 & _ & _ & Hc).
    unfold try_except, bind, lift, ret, raise, print.
    destruct (safe_load g1) as [v|e].
    + intros H; injection H as _ <- _.
      exists (lit "---" ++ w1 ++ [nl] ++ g1 ++ [nl] ++ lit "---" ++ w2 ++ [nl]).
      rewrite Hc. repeat rewrite <- app_assoc. reflexivity.
    + destruct (is_yaml_error e); [|discriminate].
      intros H; injection H as _ <- _. exists []; reflexivity.
  - intros H; injection H as _ <- _. exists []; reflexivity.
Qed.

(** X3. A file whose text does not begin with three dashes is skipped: the
    "Processing" line and the warning about the missing output are printed,
    nothing is raised and the files stay as they were. *)
Theorem headerless_file_is_skipped (f : Path) (content : str) (w : world) :
  read_text (files w) f = Ok content ->
  startswith (lit "---") content = false ->
  process_template self f w
  = (Ok tt,
     World (files w)
       (stdout w ++ [lit "Processing: " ++ path_str f;
                     lit "Warning: No output info found in " ++ path_str f])).
Proof.
  intros Hread Hstart.
  unfold process_template. rewrite bind_print.
  erewrite bind_step by (apply fs_read_say; exact Hread).
  unfold parse_frontmatter. rewrite (no_leading_dashes _ Hstart).
  unfold bind at 1. unfold ret at 1. rewrite bind_lift.
  cbn [py_get dict_get truthy negb]. unfold print, say. cbn [files stdout].
  rewrite <- app_assoc. reflexivity.
Qed.

(** X4. A file whose header block the loader rejects with a [YAMLError] is
    skipped with two warnings, the one of the parser and the one about the
    missing output; nothing is raised and the files stay as they were. *)
Theorem malformed_header_is_skipped (f : Path) (content g1 g2 msg : str)
  (w : world) :
  read_text (files w) f = Ok content ->
  match_frontmatter content = Some (g1, g2) ->
  safe_load g1 = Raise (YAMLError msg) ->
  process_template self f w
  = (Ok tt,
     World (files w)
       (stdout w ++ [lit "Processing: " ++ path_str f;
                     lit "Warning: YAML parse error: "
                     ++ exn_str (YAMLError msg);
                     lit "Warning: No output info found in " ++ path_str f])).
Proof.
  intros Hread Hmatch Hload.
  unfold process_template. rewrite bind_print.
  erewrite bind_step by (apply fs_read_say; exact Hread).
  erewrite bind_step.
  2:{ unfold parse_frontmatter. rewrite Hmatch.
      unfold try_except, bind, lift. rewrite Hload. reflexivity. }
  cbv beta iota. rewrite bind_lift.
  cbn [py_get dict_get truthy negb]. unfold print, say. cbn [files stdout].
  rewrite <- !app_assoc. reflexivity.
Qed.

(** X5. Only [YAMLError] is caught by the parser.  Any other exception of
    the loader leaves [parse_frontmatter] as it was raised, with nothing
    printed; [process_template] raises it too, and the loop of
    [process_all] prints it as the error of that file and goes on. *)
Theorem loader_exception_escapes (f : Path) (rest : list Path)
  (content g1 g2 : str) (e : exn) (w : world) :
  read_text (files w) f = Ok content ->
  match_frontmatter content = Some (g1, g2) ->
  safe_load g1 = Raise e ->
  is_yaml_error e = false ->
  parse_frontmatter content w = (Raise e, w)
  /\ process_template self f w
     = (Raise e, say (lit "Processing: " ++ path_str f) w)
  /\ process_each self (f :: rest) w
     = process_each self rest
         (say (lit "Error processing " ++ path_str f ++ lit ": " ++ exn_str e)
            (say (lit "Processing: " ++ path_str f) w)).
Proof.
  intros Hread Hmatch Hload Hyaml.
  assert (forall w0, parse_frontmatter content w0 = (Raise e, w0)) as Hparse.
  { intros w0. unfold parse_frontmatter. rewrite Hmatch.
    unfold try_except, bind, lift. rewrite Hload, Hyaml. reflexivity. }
  assert (process_template self f w
          = (Raise e, say (lit "Processing: " ++ path_str f) w)) as Hproc.
  { unfold process_template. rewrite bind_print.
    erewrite bind_step by (apply fs_read_say; exact Hread).
    unfold bind at 1. rewrite Hparse. reflexivity. }
  repeat split; [apply Hparse | exact Hproc |].
  rewrite process_each_cons, Hproc. reflexivity.
Qed.

Ltac enter_template Hread Hparse :=
  unfold process_template; rewrite bind_print;
  erewrite bind_step by (apply fs_read_say; exact Hread);
  erewrite bind_step by exact Hparse;
  cbv beta iota; rewrite bind_lift; cbn [py_get].

(** X6. An [output] entry that is there but false (null, an empty mapping,
    zero, an empty text) is treated like a missing one, and so is a false
    [file_name]: the matching warning is printed, nothing is raised and
    nothing is written. *)
Theorem false_entries_are_missing (f : Path) (content body : str)
  (header : dict) (w w2 : world) :
  read_text (files w) f = Ok content ->
  parse_frontmatter content (say (lit "Processing: " ++ path_str f) w)
  = (Ok (VDict header, body), w2) ->
  (forall v,
     dict_get (lit "output") header = Some v -> truthy v = false ->
     process_template self f w
     = (Ok tt, say (lit "Warning: No output info found in " ++ path_str f) w2))
  /\ (forall output_info v,
        dict_get (lit "output") header = Some (VDict output_info) ->
        output_info <> [] ->
        dict_get (lit "file_name") output_info = Some v -> truthy v = false ->
        process_template self f w
        = (Ok tt,
           say (lit "Warning: No file_name in output info for " ++ path_str f)
             w2)).
Proof.
  intros Hread Hparse. split.
  - intros v Hout Hv. enter_template Hread Hparse.
    rewrite Hout, Hv. reflexivity.
  - intros output_info v Hout Hne Hname Hv. enter_template Hread Hparse.
    rewrite Hout. destruct output_info as [|item output_info];
      [contradiction|].
    cbn [truthy negb]. rewrite bind_lift. cbn [py_get].
    rewrite Hname, Hv. reflexivity.
Qed.

(** X7. Header entries of the wrong type raise before anything is written.
    A true [output] that is not a mapping raises the [AttributeError] of
    [get]; a [metadata] entry that is there but is not a mapping (an empty
    [metadata:] loads as null) raises the [AttributeError] of [items]; an
    exception of the substitution is raised as it is; and a true
    [file_name] that is not text raises a [TypeError] when the output path
    is built.  In each case the world is the one the parser left: only the
    "Processing" line and the lines of the parser are printed, and the files
    are untouched. *)
Theorem ill_typed_header_raises (f : Path) (content body : str)
  (header : dict) (w w2 : world) :
  read_text (files w) f = Ok content ->
  parse_frontmatter content (say (lit "Processing: " ++ path_str f) w)
  = (Ok (VDict header, body), w2) ->
  files w2 = files w
  /\ (forall v,
        dict_get (lit "output") header = Some v -> truthy v = true ->
        (forall d, v <> VDict d) ->
        process_template self f w = (Raise (AttributeError v (lit "get")), w2))
  /\ (forall output_info name,
        dict_get (lit "output") header = Some (VDict output_info) ->
        dict_get (lit "file_name") output_info = Some name ->
        truthy name = true ->
        (forall m,
           dict_get (lit "metadata") header = Some m ->
           (forall d, m <> VDict d) ->
           process_template self f w
           = (Raise (AttributeError m (lit "items")), w2))
        /\ (forall metadata,
              py_get (VDict header) (lit "metadata") (VDict [])
              = Ok (VDict metadata) ->
              (forall e,
                 replace_variables body
                   (collect_variables metadata output_info) = Raise e ->
                 process_template self f w = (Raise e, w2))
              /\ (forall processed_body,
                    replace_variables body
                      (collect_variables metadata output_info)
                    = Ok processed_body ->
                    (forall s, name <> VStr s) ->
                    process_template self f w = (Raise (TypeError name), w2)))).
Proof.
  intros Hread Hparse. split; [|split].
  - pose proof (parse_frontmatter_files content
                  (say (lit "Processing: " ++ path_str f) w)) as H.
    rewrite Hparse in H. exact H.
  - intros v Hout Hv Hnd. enter_template Hread Hparse. rewrite Hout, Hv.
    cbn [negb]. rewrite bind_lift.
    destruct v; try reflexivity. exfalso; eapply Hnd; reflexivity.
  - intros output_info name Hout Hname Hv.
    assert (output_info <> []) as Hne by (intros ->; discriminate).
    split.
    + intros m Hm Hnd. enter_template Hread Hparse. rewrite Hout.
      destruct output_info as [|item output_info]; [contradiction|].
      cbn [truthy negb]. rewrite bind_lift. cbn [py_get].
      rewrite Hname, Hv. cbn [negb]. rewrite bind_lift. cbn [py_get].
      rewrite Hm. rewrite bind_lift.
      destruct m; try reflexivity. exfalso; eapply Hnd; reflexivity.
    + intros metadata Hmeta. cbn [py_get] in Hmeta. injection Hmeta as Hmeta.
      split.
      * intros e Hsub. enter_template Hread Hparse. rewrite Hout.
        destruct output_info as [|item output_info]; [contradiction|].
        cbn [truthy negb]. rewrite bind_lift. cbn [py_get].
        rewrite Hname, Hv. cbn [negb]. rewrite bind_lift. cbn [py_get].
        rewrite Hmeta. rewrite bind_lift. cbn [py_items].
        rewrite bind_lift. rewrite bind_lift, Hsub. reflexivity.
      * intros processed_body Hsub Hnt. enter_template Hread Hparse.
        rewrite Hout.
        destruct output_info as [|item output_info]; [contradiction|].
        cbn [truthy negb]. rewrite bind_lift. cbn [py_get].
        rewrite Hname, Hv. cbn [negb]. rewrite bind_lift. cbn [py_get].
        rewrite Hmeta. rewrite bind_lift. cbn [py_items].
        rewrite bind_lift. rewrite bind_lift, Hsub. rewrite bind_lift.
        destruct name; try reflexivity. exfalso; eapply Hnt; reflexivity.
Qed.

End TemplateCases.

(* ================================================================== *)
(** * What processing does to the files *)

Section Footprint.

Context {platform : Platform}.
Variable self : AgentTemplateProcessor.

(** X8. However processing one template ends, the files afterwards are the
    files before, unless the header of the template is a mapping whose
    [output] mapping gives a text as [file_name]; then they can also be the
    files before with the directory of [output_base_dir / file_name]
    created, or with that directory created and the framed document written
    at [output_base_dir / file_name].  The script changes nothing else. *)
Theorem process_template_footprint (f : Path) (w : world) :
  footprint self f w (files (snd (process_template self f w))).
Proof.
  assert (forall r, process_template self f w = r ->
                    footprint self f w (files (snd r))) as Hall;
    [|apply (Hall _ eq_refl)].
  intros r. unfold process_template. rewrite bind_print.
  unfold bind at 1, fs_read at 1. cbn [files say].
  destruct (read_text (files w) f) as [content|e] eqn:Hread;
    [|intros <-; left; reflexivity].
  pose proof (parse_frontmatter_files content
                (say (lit "Processing: " ++ path_str f) w)) as Hfiles.
  change (files (say (lit "Processing: " ++ path_str f) w)) with (files w)
    in Hfiles.
  change {| files := files w;
            stdout := stdout w ++ [lit "Processing: " ++ path_str f] |}
    with (say (lit "Processing: " ++ path_str f) w).
  unfold bind at 1.
  destruct (parse_frontmatter content
              (say (lit "Processing: " ++ path_str f) w))
    as [[[frontmatter body]|e] w2] eqn:Hparse; cbn [snd] in Hfiles;
    [|intros <-; left; exact Hfiles].
  rewrite bind_lift.
  destruct frontmatter as [| | | | |header|];
    try (intros <-; left; exact Hfiles).
  cbn [py_get].
  destruct (dict_get (lit "output") header) as [output_info|] eqn:Hout;
    [|intros <-; left; exact Hfiles].
  destruct (truthy output_info) eqn:Htrue; cbn [negb];
    [|intros <-; left; exact Hfiles].
  rewrite bind_lift.
  destruct output_info as [| | | | |output_info|];
    try (intros <-; left; exact Hfiles).
  cbn [py_get].
  destruct (dict_get (lit "file_name") output_info) as [name|] eqn:Hname;
    [|intros <-; left; exact Hfiles].
  destruct (truthy name) eqn:Hn; cbn [negb];
    [|intros <-; left; exact Hfiles].
  rewrite bind_lift. cbn [py_get].
  destruct (match dict_get (lit "metadata") header with
            | Some v => v
            | None => VDict []
            end) as [| | | | |metadata|] eqn:Hmeta;
    rewrite bind_lift; cbn [py_items];
    try (intros <-; left; exact Hfiles).
  rewrite bind_lift. rewrite bind_lift.
  destruct (replace_variables body (collect_variables metadata output_info))
    as [processed_body|e] eqn:Hsub; [|intros <-; left; exact Hfiles].
  rewrite bind_lift.
  destruct name as [| | |name| | |]; try (intros <-; left; exact Hfiles).
  cbn [truediv]. intros <-. right.
  exists content, header, body, w2, output_info, name.
  repeat split; try assumption.
  unfold bind, fs_update, print, say. rewrite Hfiles.
  destruct (mkdir_parents (files w)
              (parent (joinpath (output_base_dir self) name)))
    as [fs1 [e1|]] eqn:Emk; cbn [files snd fst].
  - left. reflexivity.
  - right. exists metadata, processed_body.
    split; [cbn [py_get]; rewrite Hmeta; reflexivity|].
    split; [exact Hsub|]. unfold full_content.
    destruct (write_text fs1 (joinpath (output_base_dir self) name)
                (lit "---" ++ [nl] ++ yaml_dump true false (VDict header)
                 ++ lit "---" ++ [nl] ++ processed_body))
      as [fs2 [e2|]]; reflexivity.
Qed.

End Footprint.

(* ================================================================== *)
(** * When substitution raises, and when it changes nothing *)

Section Templates.

Context {platform : Platform}.

Lemma re_sub_valid (key repl s : str) :
  valid_template repl (placeholder key) = true ->
  exists ins,
    forall s', re_sub (placeholder_pattern key) repl s'
               = Ok (sub_scan (placeholder key) ins 0 s').
Proof.
  unfold valid_template, re_sub. rewrite literal_of_placeholder_pattern.
  destruct (mem backslash repl); cbn [negb orb].
  - destruct (expand_template TText repl (placeholder key)) as [ins|];
      [|discriminate].
    intros _; exists ins; reflexivity.
  - intros _; exists repl; reflexivity.
Qed.

Lemma re_sub_invalid (key repl s : str) :
  valid_template repl (placeholder key) = false ->
  re_sub (placeholder_pattern key) repl s = Raise (ReError repl).
Proof.
  unfold valid_template, re_sub. rewrite literal_of_placeholder_pattern.
  destruct (mem backslash repl); cbn [negb orb]; [|discriminate].
  destruct (expand_template TText repl (placeholder key)); [discriminate|].
  reflexivity.
Qed.

Lemma bad_escape_invalid (repl m : str) :
  bad_escape repl = true -> valid_template repl m = false.
Proof.
  unfold valid_template. induction repl as [|c r IH]; [discriminate|].
  cbn [bad_escape expand_template].
  change (mem backslash (c :: r)) with (N.eqb backslash c || mem backslash r).
  rewrite (N.eqb_sym backslash c).
  destruct (N.eqb c backslash) eqn:Ec; cbn [negb orb].
  - destruct r as [|e r1]; [reflexivity|].
    intros H. apply andb_true_iff in H as [H Hesc].
    apply andb_true_iff in H as [Hletter Hg]. apply negb_true_iff in Hg.
    rewrite Hg.
    assert (N.eqb e 48 = false /\ is_digit e = false) as [-> ->].
    { unfold is_ascii_letter, is_digit in *.
      destruct (N.eqb e 48) eqn:E48.
      - apply N.eqb_eq in E48; subst e; discriminate.
      - split; [reflexivity|].
        apply orb_true_iff in Hletter as [H|H];
          apply andb_true_iff in H as [H1 H2];
          apply N.leb_le in H1; apply N.leb_le in H2;
          apply andb_false_iff; right; apply N.leb_gt; lia. }
    destruct (escape_code e); [discriminate|]. rewrite Hletter. reflexivity.
  - intros H. specialize (IH H). apply orb_false_iff in IH as [Hm He].
    apply negb_false_iff in Hm. rewrite Hm. cbn [negb orb].
    destruct (expand_template TText r m); [discriminate|]. reflexivity.
Qed.

(** X9. Substitution succeeds when the text of every value of the mapping is
    a replacement [re.sub] accepts, and it raises, whatever the body, when
    the text of some value is a bad escape (its first backslash is its last
    character or stands before a letter that is no escape, as in a Windows
    path): one such value makes the whole substitution fail even when the
    placeholder of its key is nowhere in the body. *)
Theorem replace_variables_bad_template (body : str) (variables : dict) :
  (forallb
     (fun kv => valid_template (py_str (snd kv)) (placeholder (fst kv)))
     variables = true ->
   exists out, replace_variables body variables = Ok out)
  /\ (existsb (fun kv => bad_escape (py_str (snd kv))) variables = true ->
      exists e, replace_variables body variables = Raise e).
Proof.
  split.
  - revert body; induction variables as [|[k v] rest IH]; intros body.
    + intros _; exists body; reflexivity.
    + cbn [replace_variables forallb fst snd]. intros H.
      apply andb_true_iff in H as [Hv Hrest].
      destruct (re_sub_valid k (py_str v) body Hv) as [ins Hins].
      rewrite Hins. apply IH; exact Hrest.
  - revert body; induction variables as [|[k v] rest IH]; intros body.
    + discriminate.
    + cbn [replace_variables existsb fst snd]. intros H.
      destruct (valid_template (py_str v) (placeholder k)) eqn:E.
      * destruct (re_sub_valid k (py_str v) body E) as [ins Hins].
        rewrite Hins. apply IH.
        destruct (bad_escape (py_str v)) eqn:Eb; [|exact H].
        rewrite (bad_escape_invalid _ (placeholder k) Eb) in E. discriminate.
      * rewrite (re_sub_invalid k (py_str v) body E). eexists; reflexivity.
Qed.

(** X10. A body without an opening brace comes back unchanged from
    substitution, for every mapping whose values are replacements [re.sub]
    accepts. *)
Theorem replace_variables_no_brace (body : str) (variables : dict) :
  mem lbrace body = false ->
  forallb
    (fun kv => valid_template (py_str (snd kv)) (placeholder (fst kv)))
    variables = true ->
  replace_variables body variables = Ok body.
Proof.
  intros Hbody. induction variables as [|[k v] rest IH]; [reflexivity|].
  cbn [replace_variables forallb fst snd]. intros H.
  apply andb_true_iff in H as [Hv Hrest].
  destruct (re_sub_valid k (py_str v) body Hv) as [ins Hins].
  rewrite Hins.
  change (placeholder k) with (lbrace :: (lbrace :: k ++ [rbrace; rbrace])).
  rewrite <- (app_nil_r body) at 1. rewrite sub_scan_text by exact Hbody.
  cbn [sub_scan]. rewrite app_nil_r. apply IH; exact Hrest.
Qed.

End Templates.

(* ================================================================== *)
(** * The order of the variables *)

Lemma keys_dict_set (k : str) (v : value) (d : dict) :
  keys (dict_set k v d)
  = if existsb (str_eqb k) (keys d) then keys d else keys d ++ [k].
Proof.
  unfold keys. induction d as [|[k' v'] d IH]; [reflexivity|].
  cbn [dict_set map fst existsb].
  destruct (str_eqb k k'); [reflexivity|].
  cbn [map fst orb]. rewrite IH.
  destruct (existsb (str_eqb k) (map fst d)); reflexivity.
Qed.

Lemma keys_copy (keep : str -> bool) (items : dict) :
  NoDup (keys items) ->
  forall acc : dict,
    keys (fold_left
            (fun vars kv =>
               if keep (fst kv) then dict_set (fst kv) (snd kv) vars else vars)
            items acc)
    = keys acc
      ++ filter (fun k => keep k && negb (existsb (str_eqb k) (keys acc)))
           (keys items).
Proof.
  induction items as [|[k0 v0] items IH]; intros Hnd acc.
  - cbn. rewrite app_nil_r. reflexivity.
  - cbn [keys map fst] in Hnd. inversion Hnd as [|? ? Hnotin Hnd']; subst.
    cbn [fold_left fst snd]. rewrite (IH Hnd').
    cbn [keys map fst filter]. fold (keys items).
    destruct (keep k0); cbn [andb]; [|reflexivity].
    rewrite keys_dict_set.
    destruct (existsb (str_eqb k0) (keys acc)) eqn:E; cbn [negb];
      [reflexivity|].
    rewrite <- app_assoc. cbn [app]. f_equal. f_equal.
    apply filter_ext_in. intros k Hin. f_equal. f_equal.
    rewrite existsb_app. cbn [existsb].
    rewrite (str_eqb_neq (a := k) (b := k0)), !orb_false_r; [reflexivity|].
    intros ->. apply Hnotin. exact Hin.
Qed.

(** X11. The variables list the keys of [metadata] first, in their order,
    then the keys of [output] that [metadata] does not have, but
    [file_name], in their order.  This is the order of the passes of the
    substitution. *)
Theorem collect_variables_keys (metadata output_info : dict) :
  NoDup (keys metadata) -> NoDup (keys output_info) ->
  keys (collect_variables metadata output_info)
  = keys metadata
    ++ filter
         (fun k => negb (str_eqb k (lit "file_name"))
                   && negb (existsb (str_eqb k) (keys metadata)))
         (keys output_info).
Proof.
  intros Hm Ho. unfold collect_variables.
  rewrite (@keys_copy (fun key => negb (str_eqb key (lit "file_name")))
             output_info Ho).
  pose proof (@keys_copy (fun _ => true) metadata Hm []) as H.
  cbn [keys map app andb existsb negb] in H. fold (keys metadata) in H.
  assert (filter (fun _ : str => true) (keys metadata) = keys metadata) as Hf.
  { clear. induction (keys metadata) as [|k l IH]; [reflexivity|].
    cbn [filter]. rewrite IH. reflexivity. }
  rewrite Hf in H.
  change (fold_left
            (fun vars kv =>
               if (fun _ : str => true) (fst kv)
               then dict_set (fst kv) (snd kv) vars else vars) metadata [])
    with (fold_left (fun vars kv => dict_set (fst kv) (snd kv) vars)
            metadata []) in H.
  rewrite H. reflexivity.
Qed.

(* ================================================================== *)
(** * Plain templates: once is enough, and the order does not matter *)

Section PlainTemplates.

Context {platform : Platform}.

Lemma fill_nil (sg : segment) : fill [] sg = sg.
Proof. destruct sg; reflexivity. Qed.

(** The passes over a plain body, one after the other, fill it. *)
Lemma replace_variables_fill (variables : dict) :
  forallb plain_variable variables = true ->
  forall segs,
    forallb plain_segment segs = true ->
    replace_variables (render segs) variables
    = Ok (render (map (fill variables) segs))
    /\ forallb plain_segment (map (fill variables) segs) = true.
Proof.
  induction variables as [|[k v] rest IH]; intros Hvars segs Hsegs.
  - cbn [replace_variables].
    rewrite (map_ext (fill []) (fun sg => sg) fill_nil), map_id. auto.
  - cbn [forallb] in Hvars. apply andb_true_iff in Hvars as [Hkv Hrest].
    unfold plain_variable in Hkv; cbn [fst snd] in Hkv.
    apply andb_true_iff in Hkv as [Hkv Hb].
    apply andb_true_iff in Hkv as [Hk Hl].
    apply negb_true_iff in Hb, Hl.
    cbn [replace_variables]. rewrite re_sub_plain by exact Hb.
    rewrite sub_scan_segments by assumption.
    destruct (IH Hrest (map (fill [(k, v)]) segs)
                (fill_plain k v segs Hl Hsegs)) as [Hrun Hplain].
    rewrite map_map in Hrun, Hplain.
    rewrite (map_ext _ _ (fill_cons k v rest)) in Hrun, Hplain. auto.
Qed.

Lemma fill_twice (variables : dict) (sg : segment) :
  fill variables (fill variables sg) = fill variables sg.
Proof.
  destruct sg as [t|name]; [reflexivity|]. cbn [fill].
  destruct (dict_get name variables) eqn:E; cbn [fill]; [reflexivity|].
  rewrite E; reflexivity.
Qed.

(** X12. On a plain body (literal text without an opening brace,
    placeholder names without braces) and a plain mapping (keys without
    braces, values without opening brace or backslash), substituting again
    in the result of a substitution changes nothing. *)
Theorem replace_variables_idempotent (segs : list segment) (variables : dict) :
  forallb plain_segment segs = true ->
  forallb plain_variable variables = true ->
  exists out,
    replace_variables (render segs) variables = Ok out
    /\ replace_variables out variables = Ok out.
Proof.
  intros Hsegs Hvars.
  destruct (replace_variables_fill variables Hvars segs Hsegs) as [Hrun Hplain].
  exists (render (map (fill variables) segs)). split; [exact Hrun|].
  destruct (replace_variables_fill variables Hvars _ Hplain) as [Hagain _].
  rewrite Hagain, map_map.
  rewrite (map_ext _ _ (fill_twice variables)). reflexivity.
Qed.

Lemma dict_get_in_keys (k : str) (d : dict) (v : value) :
  dict_get k d = Some v -> In k (keys d).
Proof.
  induction d as [|[k' v'] d IH]; [discriminate|].
  cbn [dict_get keys map fst]. destruct (str_eqb k k') eqn:E.
  - apply str_eqb_eq in E; subst; left; reflexivity.
  - intros H; right; apply IH; exact H.
Qed.

Lemma dict_get_permutation (d d' : dict) :
  Permutation d d' -> NoDup (keys d) ->
  forall k, dict_get k d = dict_get k d'.
Proof.
  induction 1 as [|[k0 v0] l l' Hp IH|[k1 v1] [k2 v2] l|l l' l'' Hp1 IH1 Hp2 IH2];
    intros Hnd k.
  - reflexivity.
  - cbn [keys map fst] in Hnd. inversion Hnd; subst.
    cbn [dict_get]. rewrite IH by assumption. reflexivity.
  - cbn [keys map fst] in Hnd. inversion Hnd as [|? ? Hnotin _]; subst.
    cbn [dict_get].
    destruct (str_eqb k k2) eqn:E2, (str_eqb k k1) eqn:E1; try reflexivity.
    apply str_eqb_eq in E1, E2; subst. exfalso; apply Hnotin; left; reflexivity.
  - rewrite IH1 by exact Hnd. apply IH2.
    unfold keys in *. eapply Permutation_NoDup; [|exact Hnd].
    apply Permutation_map; exact Hp1.
Qed.

Lemma forallb_permutation {A} (p : A -> bool) (l l' : list A) :
  Permutation l l' -> forallb p l = forallb p l'.
Proof.
  induction 1 as [|x l l' _ IH|x y l|l l' l'' _ IH1 _ IH2]; cbn [forallb].
  - reflexivity.
  - rewrite IH; reflexivity.
  - destruct (p x), (p y); reflexivity.
  - rewrite IH1; exact IH2.
Qed.

(** X13. On a plain body and a plain mapping with distinct keys, the order
    of the keys in the mapping does not matter: every reordering of the
    mapping gives the same result. *)
Theorem replace_variables_any_order (segs : list segment)
  (variables variables' : dict) :
  forallb plain_segment segs = true ->
  forallb plain_variable variables = true ->
  NoDup (keys variables) ->
  Permutation variables variables' ->
  replace_variables (render segs) variables'
  = replace_variables (render segs) variables.
Proof.
  intros Hsegs Hvars Hnd Hperm.
  assert (forallb plain_variable variables' = true) as Hvars'
    by (rewrite <- (forallb_permutation _ Hperm); exact Hvars).
  destruct (replace_variables_fill variables Hvars segs Hsegs) as [-> _].
  destruct (replace_variables_fill variables' Hvars' segs Hsegs) as [-> _].
  f_equal. f_equal. apply map_ext. intros [t|name]; [reflexivity|].
  cbn [fill]. rewrite (dict_get_permutation Hperm Hnd name). reflexivity.
Qed.

End PlainTemplates.

(** X16. Whatever characters a key has, the pattern built from it with
    [re.escape] compiles to the text of the key between the braces: no
    character of a key acts as an operator of the pattern. *)
Theorem escaped_key_is_literal (key : str) :
  literal_of (re_escape key) = Some key
  /\ literal_of (placeholder_pattern key)
     = Some ([lbrace; lbrace] ++ key ++ [rbrace; rbrace]).
Proof.
  split.
  - rewrite <- (app_nil_r (re_escape key)), literal_of_escape.
    cbn [literal_of option_map]. rewrite app_nil_r. reflexivity.
  - unfold placeholder_pattern. cbn -[re_escape].
    rewrite literal_of_escape. reflexivity.
Qed.

(* ================================================================== *)
(** * The batch and the entry point *)

Section Batch.

Context {platform : Platform}.
Variable self : AgentTemplateProcessor.

(** X15. Processing a list of files is processing its first part and then
    the rest in the world the first part left: the loop never stops early
    and hands nothing from one file to the next but the files and the
    lines printed. *)
Theorem process_each_app (first rest : list Path) (w : world) :
  process_each self (first ++ rest) w
  = process_each self rest (snd (process_each self first w)).
Proof.
  revert w; induction first as [|f first IH]; intros w; [reflexivity|].
  cbn [app]. rewrite !process_each_cons.
  destruct (process_template self f w) as [[[]|e] w1]; apply IH.
Qed.

Lemma process_all_ok (w : world) (template_files : list Path) :
  glob_md (files w) (template_dir self) = Ok template_files ->
  exists w', process_all self w = (Ok tt, w')
             /\ exists lines, stdout w' = stdout w ++ lines.
Proof.
  intros H. unfold process_all, bind at 1, fs_glob. rewrite H.
  destruct template_files as [|f rest].
  - eexists; split; [reflexivity|]. eexists; reflexivity.
  - rewrite bind_print.
    destruct (process_each_total self (f :: rest)
                (say (lit "Found " ++ str_of_nat (length (f :: rest))
                      ++ lit " template file(s)") w))
      as (w' & Hrun & [lines Hlines] & _).
    exists w'; split; [exact Hrun|].
    eexists. rewrite Hlines. unfold say. cbn [stdout].
    rewrite <- app_assoc. reflexivity.
Qed.

End Batch.

Section EntryPoint.

Context {platform : Platform}.

(** X14. [main] prints the two directories, which are the same, and an
    empty line, and then is [process_all] on that directory: with an empty
    listing it prints that no template was found, and with any other
    listing it runs the loop on the whole listing and returns normally,
    whatever happens to the single files. *)
Theorem main_runs_process_all (script_file : Path) (w : world) :
  let dir :=
    joinpath (parent (parent (parent script_file))) (lit "github-copilot") in
  let self := {| template_dir := dir; output_base_dir := dir |} in
  let w3 :=
    say [] (say (lit "Output base directory: " ++ path_str dir)
              (say (lit "Template directory: " ++ path_str dir) w)) in
  main script_file w = process_all self w3
  /\ (glob_md (files w) dir = Ok [] ->
      main script_file w
      = (Ok tt, say (lit "No template files found in " ++ path_str dir) w3))
  /\ (forall f rest,
        glob_md (files w) dir = Ok (f :: rest) ->
        main script_file w
        = process_each self (f :: rest)
            (say (lit "Found " ++ str_of_nat (length (f :: rest))
                  ++ lit " template file(s)") w3)
        /\ exists w', main script_file w = (Ok tt, w')).
Proof.
  intros dir self w3.
  assert (main script_file w = process_all self w3) as Hmain.
  { unfold main. fold dir. rewrite !bind_print. reflexivity. }
  split; [exact Hmain|]. rewrite Hmain. split.
  - intros H. unfold process_all, bind, fs_glob.
    change (glob_md (files w3) (template_dir self))
      with (glob_md (files w) dir).
    rewrite H. reflexivity.
  - intros f rest H. split.
    + unfold process_all, bind, fs_glob, print.
      change (glob_md (files w3) (template_dir self))
        with (glob_md (files w) dir).
      rewrite H. reflexivity.
    + destruct (@process_all_ok _ self w3 (f :: rest) H) as (w' & Hrun & _).
      exists w'; exact Hrun.
Qed.

End EntryPoint.


(* ================================================================== *)
(** * These theorems on the example platforms *)

Lemma match_frontmatter_complete_witness :
  match_frontmatter
    (lit "---" ++ lit "  " ++ [nl] ++ lit "a: 1" ++ [nl] ++ lit "---"
     ++ [nl] ++ [nl] ++ lit "body")
  = Some (lit "a: 1", lit "body").
Proof.
  exact (match_frontmatter_complete (lit "  ") (lit "a: 1") [nl] (lit "body")
           eq_refl eq_refl eq_refl eq_refl eq_refl).
Defined.

Lemma parse_frontmatter_body_suffix_witness :
  exists front, Example.good_md = front ++ lit "Hello {{a}} and {{b}}".
Proof.
  apply (@parse_frontmatter_body_suffix Example.toy Example.good_md
           Example.start Example.start Example.header1_value
           (lit "Hello {{a}} and {{b}}")).
  vm_compute; reflexivity.
Defined.

Lemma headerless_file_is_skipped_witness :
  process_template (platform := Example.toy) Example.processor
    (lit "tpl/plain.md") Example.start
  = (Ok tt,
     World (platform := Example.toy) Example.disk
       [lit "Processing: tpl/plain.md";
        lit "Warning: No output info found in tpl/plain.md"]).
Proof.
  apply (@headerless_file_is_skipped Example.toy Example.processor
           (lit "tpl/plain.md") Example.plain_md Example.start).
  - vm_compute; reflexivity.
  - vm_compute; reflexivity.
Defined.

Lemma malformed_header_is_skipped_witness :
  process_template (platform := Example.toy) Example.processor
    (lit "tpl/broken.md") Example.start
  = (Ok tt,
     World (platform := Example.toy) Example.disk
       [lit "Processing: tpl/broken.md";
        lit "Warning: YAML parse error: while parsing a flow node";
        lit "Warning: No output info found in tpl/broken.md"]).
Proof.
  apply (@malformed_header_is_skipped Example.toy Example.processor
           (lit "tpl/broken.md") Example.broken_md (lit "a: [") (lit "text")
           (lit "while parsing a flow node") Example.start).
  - vm_compute; reflexivity.
  - vm_compute; reflexivity.
  - vm_compute; reflexivity.
Defined.

Lemma loader_exception_escapes_witness :
  process_template (platform := Cases.toy) Cases.processor
    (lit "tpl/date.md") Cases.start
  = (Raise (OtherError (lit "NotImplementedError") (lit "when: 2001-13-45")),
     say (lit "Processing: tpl/date.md") Cases.start).
Proof.
  apply (@loader_exception_escapes Cases.toy Cases.processor
           (lit "tpl/date.md") []
           (Cases.doc (lit "when: 2001-13-45") (lit "text"))
           (lit "when: 2001-13-45") (lit "text")
           (OtherError (lit "NotImplementedError") (lit "when: 2001-13-45"))
           Cases.start).
  - vm_compute; reflexivity.
  - vm_compute; reflexivity.
  - vm_compute; reflexivity.
  - reflexivity.
Defined.

Lemma false_entries_are_missing_witness :
  process_template (platform := Cases.toy) Cases.processor
    (lit "tpl/null_output.md") Cases.start
  = (Ok tt,
     say (lit "Warning: No output info found in tpl/null_output.md")
       (say (lit "Processing: tpl/null_output.md") Cases.start))
  /\ process_template (platform := Cases.toy) Cases.processor
       (lit "tpl/zero_name.md") Cases.start
     = (Ok tt,
        say (lit "Warning: No file_name in output info for tpl/zero_name.md")
          (say (lit "Processing: tpl/zero_name.md") Cases.start)).
Proof.
  split.
  - apply (proj1 (@false_entries_are_missing Cases.toy Cases.processor
                    (lit "tpl/null_output.md")
                    (Cases.doc (lit "output: ") (lit "text")) (lit "text")
                    [(lit "output", VNone)] Cases.start
                    (say (lit "Processing: tpl/null_output.md") Cases.start)
                    ltac:(vm_compute; reflexivity)
                    ltac:(vm_compute; reflexivity))
             VNone).
    + vm_compute; reflexivity.
    + reflexivity.
  - apply (proj2 (@false_entries_are_missing Cases.toy Cases.processor
                    (lit "tpl/zero_name.md")
                    (Cases.doc (lit "output: {file_name: 0}") (lit "text"))
                    (lit "text")
                    [(lit "output", VDict [(lit "file_name", VInt 0)])]
                    Cases.start
                    (say (lit "Processing: tpl/zero_name.md") Cases.start)
                    ltac:(vm_compute; reflexivity)
                    ltac:(vm_compute; reflexivity))
             [(lit "file_name", VInt 0)] (VInt 0)).
    + vm_compute; reflexivity.
    + discriminate.
    + vm_compute; reflexivity.
    + reflexivity.
Defined.

Lemma ill_typed_header_raises_witness :
  process_template (platform := Cases.toy) Cases.processor
    (lit "tpl/text_output.md") Cases.start
  = (Raise (AttributeError (VStr (lit "notes.md")) (lit "get")),
     say (lit "Processing: tpl/text_output.md") Cases.start)
  /\ process_template (platform := Cases.toy) Cases.processor
       (lit "tpl/null_metadata.md") Cases.start
     = (Raise (AttributeError VNone (lit "items")),
        say (lit "Processing: tpl/null_metadata.md") Cases.start)
  /\ process_template (platform := Cases.toy) Cases.processor
       (lit "tpl/windows.md") Cases.start
     = (Raise (ReError (lit "C:\Users")),
        say (lit "Processing: tpl/windows.md") Cases.start)
  /\ process_template (platform := Cases.toy) Cases.processor
       (lit "tpl/number_name.md") Cases.start
     = (Raise (TypeError (VInt 5)),
        say (lit "Processing: tpl/number_name.md") Cases.start).
Proof.
  split; [|split; [|split]].
  - destruct (@ill_typed_header_raises Cases.toy Cases.processor
                (lit "tpl/text_output.md")
                (Cases.doc (lit "output: notes.md") (lit "text")) (lit "text")
                [(lit "output", VStr (lit "notes.md"))] Cases.start
                (say (lit "Processing: tpl/text_output.md") Cases.start)
                ltac:(vm_compute; reflexivity) ltac:(vm_compute; reflexivity))
      as (_ & Hget & _).
    apply Hget; [vm_compute; reflexivity | reflexivity | discriminate].
  - destruct (@ill_typed_header_raises Cases.toy Cases.processor
                (lit "tpl/null_metadata.md")
                (Cases.doc (lit "{output: {file_name: out.md}, metadata: }")
                   (lit "text"))
                (lit "text")
                [(lit "output", VDict [(lit "file_name", VStr (lit "out.md"))]);
                 (lit "metadata", VNone)]
                Cases.start
                (say (lit "Processing: tpl/null_metadata.md") Cases.start)
                ltac:(vm_compute; reflexivity) ltac:(vm_compute; reflexivity))
      as (_ & _ & Hrest).
    destruct (Hrest [(lit "file_name", VStr (lit "out.md"))]
                (VStr (lit "out.md")) ltac:(vm_compute; reflexivity)
                ltac:(vm_compute; reflexivity) eq_refl) as [Hitems _].
    apply Hitems; [vm_compute; reflexivity | discriminate].
  - destruct (@ill_typed_header_raises Cases.toy Cases.processor
                (lit "tpl/windows.md")
                (Cases.doc (lit "output: {file_name: out.md, p: C:\Users}")
                   (lit "text"))
                (lit "text")
                [(lit "output",
                  VDict [(lit "file_name", VStr (lit "out.md"));
                         (lit "p", VStr (lit "C:\Users"))])]
                Cases.start
                (say (lit "Processing: tpl/windows.md") Cases.start)
                ltac:(vm_compute; reflexivity) ltac:(vm_compute; reflexivity))
      as (_ & _ & Hrest).
    destruct (Hrest [(lit "file_name", VStr (lit "out.md"));
                     (lit "p", VStr (lit "C:\Users"))]
                (VStr (lit "out.md")) ltac:(vm_compute; reflexivity)
                ltac:(vm_compute; reflexivity) eq_refl) as [_ Hmeta].
    destruct (Hmeta [] ltac:(vm_compute; reflexivity)) as [Hsub _].
    apply Hsub. vm_compute; reflexivity.
  - destruct (@ill_typed_header_raises Cases.toy Cases.processor
                (lit "tpl/number_name.md")
                (Cases.doc (lit "output: {file_name: 5}") (lit "text"))
                (lit "text")
                [(lit "output", VDict [(lit "file_name", VInt 5)])]
                Cases.start
                (say (lit "Processing: tpl/number_name.md") Cases.start)
                ltac:(vm_compute; reflexivity) ltac:(vm_compute; reflexivity))
      as (_ & _ & Hrest).
    destruct (Hrest [(lit "file_name", VInt 5)] (VInt 5)
                ltac:(vm_compute; reflexivity)
                ltac:(vm_compute; reflexivity) eq_refl) as [_ Hmeta].
    destruct (Hmeta [] ltac:(vm_compute; reflexivity)) as [_ Hname].
    apply (Hname (lit "text")); [vm_compute; reflexivity | discriminate].
Defined.

Lemma replace_variables_bad_template_witness :
  (exists out,
      replace_variables (platform := Example.toy) (lit "Hi {{a}}")
        [(lit "a", VStr (lit "x\ty")); (lit "b", VInt 2)] = Ok out)
  /\ exists e,
       replace_variables (platform := Example.toy) (lit "no placeholder")
         [(lit "a", VStr (lit "x")); (lit "p", VStr (lit "C:\Users"))]
       = Raise e.
Proof.
  split.
  - apply (proj1 (replace_variables_bad_template (platform := Example.toy)
                    (lit "Hi {{a}}")
                    [(lit "a", VStr (lit "x\ty")); (lit "b", VInt 2)])).
    vm_compute; reflexivity.
  - apply (proj2 (replace_variables_bad_template (platform := Example.toy)
                    (lit "no placeholder")
                    [(lit "a", VStr (lit "x"));
                     (lit "p", VStr (lit "C:\Users"))])).
    vm_compute; reflexivity.
Defined.

Lemma replace_variables_no_brace_witness :
  replace_variables (platform := Example.toy) (lit "no placeholder }} here")
    [(lit "a", VStr (lit "x\ty")); (lit "b", VInt 2)]
  = Ok (lit "no placeholder }} here").
Proof.
  apply (replace_variables_no_brace (platform := Example.toy)).
  - vm_compute; reflexivity.
  - vm_compute; reflexivity.
Defined.

Lemma collect_variables_keys_witness :
  keys (collect_variables
          [(lit "b", VInt 1); (lit "a", VInt 2)]
          [(lit "file_name", VStr (lit "out.md")); (lit "c", VInt 3);
           (lit "a", VInt 4)])
  = [lit "b"; lit "a"; lit "c"].
Proof.
  apply (@collect_variables_keys
           [(lit "b", VInt 1); (lit "a", VInt 2)]
           [(lit "file_name", VStr (lit "out.md")); (lit "c", VInt 3);
            (lit "a", VInt 4)]).
  - repeat constructor; vm_compute; intuition discriminate.
  - repeat constructor; vm_compute; intuition discriminate.
Defined.

Lemma replace_variables_idempotent_witness :
  exists out,
    replace_variables (platform := Example.toy)
      (render [Text (lit "Hello, "); Hole (lit "name"); Hole (lit "unknown")])
      [(lit "name", VStr (lit "Alice"))] = Ok out
    /\ replace_variables (platform := Example.toy) out
         [(lit "name", VStr (lit "Alice"))] = Ok out.
Proof.
  apply (replace_variables_idempotent (platform := Example.toy)
           [Text (lit "Hello, "); Hole (lit "name"); Hole (lit "unknown")]
           [(lit "name", VStr (lit "Alice"))]).
  - reflexivity.
  - reflexivity.
Defined.

Lemma replace_variables_any_order_witness :
  replace_variables (platform := Example.toy)
    (render [Hole (lit "a"); Text (lit " and "); Hole (lit "b")])
    [(lit "b", VStr (lit "2")); (lit "a", VStr (lit "1"))]
  = replace_variables (platform := Example.toy)
      (render [Hole (lit "a"); Text (lit " and "); Hole (lit "b")])
      [(lit "a", VStr (lit "1")); (lit "b", VStr (lit "2"))].
Proof.
  apply (replace_variables_any_order (platform := Example.toy)).
  - reflexivity.
  - reflexivity.
  - repeat constructor; vm_compute; intuition discriminate.
  - apply perm_swap.
Defined.

Lemma main_runs_process_all_witness :
  main (platform := Cases.toy) Cases.elsewhere Cases.start
  = (Ok tt,
     say (lit "No template files found in tmp/github-copilot")
       (say [] (say (lit "Output base directory: tmp/github-copilot")
                  (say (lit "Template directory: tmp/github-copilot")
                     Cases.start))))
  /\ main (platform := Cases.toy) Cases.script Cases.start
     = process_each (platform := Cases.toy)
         (@Build_AgentTemplateProcessor Cases.toy
            (lit "repo/github-copilot") (lit "repo/github-copilot"))
         [lit "repo/github-copilot/plain.md"]
         (say (lit "Found 1 template file(s)")
            (say [] (say (lit "Output base directory: repo/github-copilot")
                       (say (lit "Template directory: repo/github-copilot")
                          Cases.start)))).
Proof.
  split.
  - destruct (main_runs_process_all (platform := Cases.toy) Cases.elsewhere
                Cases.start) as (_ & Hempty & _).
    apply Hempty. vm_compute; reflexivity.
  - destruct (main_runs_process_all (platform := Cases.toy) Cases.script
                Cases.start) as (_ & _ & Hloop).
    destruct (Hloop (lit "repo/github-copilot/plain.md") []
                ltac:(vm_compute; reflexivity)) as [Hrun _].
    exact Hrun.
Defined.

(* ================================================================== *)
(** * Failures of the file system *)

Section Failures.

Context {platform : Platform}.
Variable self : AgentTemplateProcessor.

(** X17. A template that cannot be read raises the exception of the read
    right after its "Processing" line, with the files untouched, and the
    loop of [process_all] prints the error and goes on. *)
Theorem unreadable_file_raises (f : Path) (rest : list Path) (e : exn)
  (w : world) :
  read_text (files w) f = Raise e ->
  process_template self f w
  = (Raise e, say (lit "Processing: " ++ path_str f) w)
  /\ process_each self (f :: rest) w
     = process_each self rest
         (say (lit "Error processing " ++ path_str f ++ lit ": " ++ exn_str e)
            (say (lit "Processing: " ++ path_str f) w)).
Proof.
  intros Hread.
  assert (process_template self f w
          = (Raise e, say (lit "Processing: " ++ path_str f) w)) as Hproc.
  { unfold process_template. rewrite bind_print.
    unfold bind at 1, fs_read. cbn [files say]. rewrite Hread. reflexivity. }
  split; [exact Hproc|]. rewrite process_each_cons, Hproc. reflexivity.
Qed.

(** X18. When the header, the variables and the substitution are in order
    but the directory cannot be created, or the file cannot be written,
    [process_template] raises that exception: no "Created" line is printed,
    and after a failed [mkdir] no write is attempted. *)
Theorem write_failure_raises (f : Path) (content body name : str)
  (header output_info metadata : dict) (processed_body : str)
  (w w2 : world) :
  read_text (files w) f = Ok content ->
  parse_frontmatter content (say (lit "Processing: " ++ path_str f) w)
  = (Ok (VDict header, body), w2) ->
  dict_get (lit "output") header = Some (VDict output_info) ->
  dict_get (lit "file_name") output_info = Some (VStr name) ->
  name <> [] ->
  py_get (VDict header) (lit "metadata") (VDict []) = Ok (VDict metadata) ->
  replace_variables body (collect_variables metadata output_info)
  = Ok processed_body ->
  (forall fs1 e,
     mkdir_parents (files w) (parent (joinpath (output_base_dir self) name))
     = (fs1, Some e) ->
     process_template self f w = (Raise e, World fs1 (stdout w2)))
  /\ (forall fs1 fs2 e,
        mkdir_parents (files w) (parent (joinpath (output_base_dir self) name))
        = (fs1, None) ->
        write_text fs1 (joinpath (output_base_dir self) name)
          (lit "---" ++ [nl] ++ yaml_dump true false (VDict header)
           ++ lit "---" ++ [nl] ++ processed_body)
        = (fs2, Some e) ->
        process_template self f w = (Raise e, World fs2 (stdout w2))).
Proof.
  intros Hread Hparse Hout Hname Hne Hmeta Hsub.
  assert (files w2 = files w) as Hfiles.
  { pose proof (parse_frontmatter_files content
                  (say (lit "Processing: " ++ path_str f) w)) as H.
    rewrite Hparse in H. exact H. }
  cbn [py_get] in Hmeta. injection Hmeta as Hmeta.
  destruct output_info as [|item output_info]; [discriminate|].
  destruct name as [|c name]; [contradiction|].
  split.
  - intros fs1 e Hmk. unfold process_template. rewrite bind_print.
    erewrite bind_step by (apply fs_read_say; exact Hread).
    erewrite bind_step by exact Hparse. cbv beta iota.
    rewrite bind_lift. cbn [py_get]. rewrite Hout. cbn [truthy negb].
    rewrite bind_lift. cbn [py_get]. rewrite Hname. cbn [truthy negb].
    rewrite bind_lift. cbn [py_get]. rewrite Hmeta.
    rewrite bind_lift. cbn [py_items]. rewrite bind_lift.
    rewrite bind_lift, Hsub. rewrite bind_lift. cbn [truediv].
    unfold bind at 1, fs_update at 1. rewrite Hfiles, Hmk. reflexivity.
  - intros fs1 fs2 e Hmk Hwr. unfold process_template. rewrite bind_print.
    erewrite bind_step by (apply fs_read_say; exact Hread).
    erewrite bind_step by exact Hparse. cbv beta iota.
    rewrite bind_lift. cbn [py_get]. rewrite Hout. cbn [truthy negb].
    rewrite bind_lift. cbn [py_get]. rewrite Hname. cbn [truthy negb].
    rewrite bind_lift. cbn [py_get]. rewrite Hmeta.
    rewrite bind_lift. cbn [py_items]. rewrite bind_lift.
    rewrite bind_lift, Hsub. rewrite bind_lift. cbn [truediv].
    erewrite bind_fs_update by (rewrite Hfiles; exact Hmk).
    unfold bind at 1, fs_update at 1. cbn [files stdout].
    unfold full_content. rewrite Hwr. reflexivity.
Qed.

End Failures.

Lemma unreadable_file_raises_witness :
  process_template (platform := Example.toy) Example.processor
    (lit "tpl/missing.md") Example.start
  = (Raise (OtherError (lit "FileNotFoundError") (lit "tpl/missing.md")),
     say (lit "Processing: tpl/missing.md") Example.start).
Proof.
  apply (@unreadable_file_raises Example.toy Example.processor
           (lit "tpl/missing.md") []
           (OtherError (lit "FileNotFoundError") (lit "tpl/missing.md"))
           Example.start).
  vm_compute; reflexivity.
Defined.

Lemma write_failure_raises_witness :
  process_template (platform := Cases.toy) Cases.locked
    (lit "tpl/ro.md") Cases.start
  = (Raise (OtherError (lit "PermissionError") (lit "locked")),
     say (lit "Processing: tpl/ro.md") Cases.start)
  /\ process_template (platform := Cases.toy) Cases.processor
       (lit "tpl/ro.md") Cases.start
     = (Raise (OtherError (lit "PermissionError") (lit "out/ro.md")),
        say (lit "Processing: tpl/ro.md") Cases.start).
Proof.
  split.
  - apply (proj1 (@write_failure_raises Cases.toy Cases.locked
                    (lit "tpl/ro.md")
                    (Cases.doc (lit "output: {file_name: ro.md}") (lit "text"))
                    (lit "text") (lit "ro.md")
                    [(lit "output",
                      VDict [(lit "file_name", VStr (lit "ro.md"))])]
                    [(lit "file_name", VStr (lit "ro.md"))] []
                    (lit "text") Cases.start
                    (say (lit "Processing: tpl/ro.md") Cases.start)
                    ltac:(vm_compute; reflexivity)
                    ltac:(vm_compute; reflexivity)
                    ltac:(vm_compute; reflexivity)
                    ltac:(vm_compute; reflexivity)
                    ltac:(discriminate)
                    ltac:(vm_compute; reflexivity)
                    ltac:(vm_compute; reflexivity))
             Cases.disk).
    vm_compute; reflexivity.
  - apply (proj2 (@write_failure_raises Cases.toy Cases.processor
                    (lit "tpl/ro.md")
                    (Cases.doc (lit "output: {file_name: ro.md}") (lit "text"))
                    (lit "text") (lit "ro.md")
                    [(lit "output",
                      VDict [(lit "file_name", VStr (lit "ro.md"))])]
                    [(lit "file_name", VStr (lit "ro.md"))] []
                    (lit "text") Cases.start
                    (say (lit "Processing: tpl/ro.md") Cases.start)
                    ltac:(vm_compute; reflexivity)
                    ltac:(vm_compute; reflexivity)
                    ltac:(vm_compute; reflexivity)
                    ltac:(vm_compute; reflexivity)
                    ltac:(discriminate)
                    ltac:(vm_compute; reflexivity)
                    ltac:(vm_compute; reflexivity))
             Cases.disk Cases.disk).
    + vm_compute; reflexivity.
    + vm_compute; reflexivity.
Defined.

Lemma process_template_footprint_witness :
  footprint (platform := Example.toy) Example.processor (lit "tpl/good.md")
    Example.start
    (Example.store_file (lit "out/out.md")
       (lit "---" ++ [nl] ++ Example.header1 ++ [nl]
        ++ lit "---" ++ [nl] ++ lit "Hello 2 and {{b}}")
       Example.disk)
  /\ footprint (platform := Example.toy) Example.processor (lit "tpl/plain.md")
       Example.start Example.disk.
Proof.
  split.
  - pose proof (process_template_footprint (platform := Example.toy)
                  Example.processor (lit "tpl/good.md") Example.start) as H.
    vm_compute in H. vm_compute. exact H.
  - pose proof (process_template_footprint (platform := Example.toy)
                  Example.processor (lit "tpl/plain.md") Example.start) as H.
    vm_compute in H. vm_compute. exact H.
Defined.
